(** * Batched SQL ingestion: value formatting, row batching, insert emission

    A shallow embedding of the ingestion code of the lakehouse pipeline:

    - [scripts/insert_taxi_data.py]: [format_value] and the batch-insert
      loop of [main];
    - [lakehouse_pipeline/assets/ingestion.py]: [_format_value] and the
      loop of [iceberg_raw_yellow_trips];
    - [lakehouse_pipeline/resources/trino_resource.py]:
      [TrinoResource.get_connection] and [TrinoResource.execute].

    Python values are an inductive type, Python integers are [Z], floats are
    IEEE binary64 data ([spec_float]), strings are [string].  Calls that can
    raise return an [outcome]; the database cursor is an oracle over the
    history of calls made so far, and every call is recorded in that
    history. *)

From Stdlib Require Import ZArith List String Ascii Bool Lia.
From Stdlib Require Import QArith Qround.
From Stdlib Require Import Decimal DecimalString SpecFloat.
From Stdlib Require DecimalZ DecimalPos.
Import ListNotations.

Local Open Scope Z_scope.

(* ===================================================================== *)
(** * The Python fragment the code relies on *)
(* ===================================================================== *)

Module Py.

(** ** Exceptions and outcomes *)

(** The part of the exception hierarchy that matters for [except] clauses:
    [KeyboardInterrupt], [SystemExit] and [GeneratorExit] derive from
    [BaseException] only; everything else that is raised here (driver and
    database errors, [ValueError], ...) derives from [Exception]. *)
Inductive exn : Type :=
| KeyboardInterrupt
| SystemExit
| GeneratorExit
| ExceptionSubclass (name : string).

Definition isinstance_Exception (e : exn) : bool :=
  match e with
  | ExceptionSubclass _ => true
  | _ => false
  end.

Definition ValueError : exn := ExceptionSubclass "ValueError".

Inductive outcome (A : Type) : Type :=
| Ok (a : A)
| Raise (e : exn).
Arguments Ok {A} a.
Arguments Raise {A} e.

Definition obind {A B} (c : outcome A) (k : A -> outcome B) : outcome B :=
  match c with
  | Ok a => k a
  | Raise e => Raise e
  end.

(** ** Strings *)

Local Open Scope string_scope.
Local Open Scope Z_scope.

(** [sep.join(parts)] *)
Fixpoint str_join (sep : string) (parts : list string) : string :=
  match parts with
  | [] => EmptyString
  | [p] => p
  | p :: rest => p ++ sep ++ str_join sep rest
  end.

(** [c.lower()] on one ASCII character. *)
Definition ascii_lower (c : ascii) : ascii :=
  let n := N_of_ascii c in
  if ((65 <=? n) && (n <=? 90))%N then ascii_of_N (n + 32) else c.

(** [s.lower()], ASCII letters only (column names are ASCII). *)
Fixpoint str_lower (s : string) : string :=
  match s with
  | EmptyString => EmptyString
  | String c s' => String (ascii_lower c) (str_lower s')
  end.

(** ["0" * n] *)
Fixpoint zeros (n : nat) : string :=
  match n with
  | O => EmptyString
  | S n' => String "0" (zeros n')
  end.

(** Left padding with zeros up to [width] characters, as [%0<width>d]
    does for a non-negative number already rendered as [s]. *)
Definition zfill (width : nat) (s : string) : string :=
  zeros (width - String.length s) ++ s.

(** ** [str] of an integer and of a boolean *)

Definition str_int (z : Z) : string := NilZero.string_of_int (Z.to_int z).

Definition str_bool (b : bool) : string := if b then "True" else "False".

(** ** [datetime.datetime] (naive) *)

Record datetime : Type := mk_datetime {
  year : Z; month : Z; day : Z;
  hour : Z; minute : Z; second : Z; microsecond : Z
}.

(** [datetime.isoformat(sep)] with [timespec='auto']: the fraction is
    printed only when [microsecond] is not zero. *)
Definition isoformat (sep : string) (d : datetime) : string :=
  zfill 4 (str_int (year d)) ++ "-" ++ zfill 2 (str_int (month d)) ++ "-"
  ++ zfill 2 (str_int (day d)) ++ sep
  ++ zfill 2 (str_int (hour d)) ++ ":" ++ zfill 2 (str_int (minute d)) ++ ":"
  ++ zfill 2 (str_int (second d))
  ++ (if microsecond d =? 0 then EmptyString else "." ++ zfill 6 (str_int (microsecond d))).

(** [datetime.__str__] is [isoformat(sep=' ')]. *)
Definition str_datetime (d : datetime) : string := isoformat " " d.

(** ** [repr] of a float

    CPython prints a finite float as the shortest decimal digit string
    that rounds back to the same double (the closest such string, ties to
    an even last digit), laid out by the rules of the ['r'] format code:
    exponent notation when the decimal point position is [<= -4] or
    [> 16], a trailing [".0"] for integral values otherwise.  A float is
    [spec_float] data of format binary64: [S754_finite s m e] is
    [(-1)^s * m * 2^e] in canonical form, that is with
    [bounded 53 1024 m e = true]. *)

Definition Qlt_bool (a b : Q) : bool := negb (Qle_bool b a).

Definition pow10 (n : Z) : Q := Qpower (10 # 1) n.
Definition pow2 (n : Z) : Q := Qpower (2 # 1) n.

Definition float_value (m : positive) (e : Z) : Q :=
  (inject_Z (Zpos m) * pow2 e)%Q.

(** The lower neighbour is half as far away at the start of a binade. *)
Definition at_binade_start (m : positive) (e : Z) : bool :=
  (Zpos m =? 2 ^ 52) && (-1074 <? e).

Definition round_lo (m : positive) (e : Z) : Q :=
  (float_value m e - (if at_binade_start m e then pow2 (e - 2) else pow2 (e - 1)))%Q.

Definition round_hi (m : positive) (e : Z) : Q :=
  (float_value m e + pow2 (e - 1))%Q.

(** Does the real [c] round (to nearest, ties to even) to [m * 2^e]? *)
Definition rounds_to (m : positive) (e : Z) (c : Q) : bool :=
  if Z.even (Zpos m)
  then Qle_bool (round_lo m e) c && Qle_bool c (round_hi m e)
  else Qlt_bool (round_lo m e) c && Qlt_bool c (round_hi m e).

(** The least [n >= n0] with [x < 10^n]. *)
Fixpoint find_decpt (fuel : nat) (x : Q) (n : Z) : Z :=
  match fuel with
  | O => n
  | S fuel' => if Qlt_bool x (pow10 n) then n else find_decpt fuel' x (n + 1)
  end.

Definition decimal_exponent (x : Q) : Z := find_decpt 640 x (-324).

(** The [k]-digit decimal [d * 10^q] that rounds to the float, if any. *)
Definition candidate (m : positive) (e : Z) (n k : Z) : option (Z * Z) :=
  let x := float_value m e in
  let q := n - k in
  let lo := Qfloor (x * pow10 (- q)) in
  let hi := lo + 1 in
  let vlo := (inject_Z lo * pow10 q)%Q in
  let vhi := (inject_Z hi * pow10 q)%Q in
  match rounds_to m e vlo, rounds_to m e vhi with
  | true, true =>
      if Qlt_bool (x - vlo) (vhi - x) then Some (lo, q)
      else if Qlt_bool (vhi - x) (x - vlo) then Some (hi, q)
      else if Z.even lo then Some (lo, q) else Some (hi, q)
  | true, false => Some (lo, q)
  | false, true => Some (hi, q)
  | false, false => None
  end.

Fixpoint shortest (fuel : nat) (m : positive) (e : Z) (n k : Z) : Z * Z :=
  match fuel with
  | O => (Qfloor (float_value m e * pow10 (k - n)), n - k)
  | S fuel' =>
      match candidate m e n k with
      | Some r => r
      | None => shortest fuel' m e n (k + 1)
      end
  end.

Fixpoint strip_zeros (fuel : nat) (d q : Z) : Z * Z :=
  match fuel with
  | O => (d, q)
  | S fuel' =>
      if (0 <? d) && (d mod 10 =? 0) then strip_zeros fuel' (d / 10) (q + 1)
      else (d, q)
  end.

(** The digit string and the position of the decimal point. *)
Definition shortest_digits (m : positive) (e : Z) : string * Z :=
  let n := decimal_exponent (float_value m e) in
  let '(d, q) := shortest 17 m e n 1 in
  let '(d', q') := strip_zeros 17 d q in
  let ds := str_int d' in
  (ds, Z.of_nat (String.length ds) + q').

(** Layout of the digits [ds] with the decimal point after [decpt]
    digits. *)
Definition format_repr (ds : string) (decpt : Z) : string :=
  let len := Z.of_nat (String.length ds) in
  if (decpt <=? -4) || (16 <? decpt) then
    let exp := decpt - 1 in
    (match ds with
     | String c (String c' rest) => String c ("." ++ String c' rest)
     | _ => ds
     end)
    ++ "e" ++ (if exp <? 0 then "-" else "+") ++ zfill 2 (str_int (Z.abs exp))
  else if decpt <=? 0 then
    "0." ++ zeros (Z.to_nat (- decpt)) ++ ds
  else if decpt <? len then
    substring 0 (Z.to_nat decpt) ds ++ "."
    ++ substring (Z.to_nat decpt) (Z.to_nat (len - decpt)) ds
  else
    ds ++ zeros (Z.to_nat (decpt - len)) ++ ".0".

Definition str_float (f : spec_float) : string :=
  match f with
  | S754_nan => "nan"
  | S754_infinity s => if s then "-inf" else "inf"
  | S754_zero s => if s then "-0.0" else "0.0"
  | S754_finite s m e =>
      let '(ds, decpt) := shortest_digits m e in
      (if s then "-" else EmptyString) ++ format_repr ds decpt
  end.

(** ** Scalar values

    The scalars a row can hold: [None], a float, an int, a str, a
    timestamp ([datetime], which is what has an [isoformat] attribute),
    a bool. *)
Inductive value : Type :=
| PyNone
| PyFloat (f : spec_float)
| PyInt (z : Z)
| PyStr (s : string)
| PyDatetime (d : datetime)
| PyBool (b : bool).

(** [val is None] *)
Definition is_None (val : value) : bool :=
  match val with PyNone => true | _ => false end.

(** [isinstance(val, float)]; a bool is an int, not a float. *)
Definition isinstance_float (val : value) : bool :=
  match val with PyFloat _ => true | _ => false end.

(** [isinstance(val, str)] *)
Definition isinstance_str (val : value) : bool :=
  match val with PyStr _ => true | _ => false end.

(** [hasattr(val, "isoformat")] *)
Definition hasattr_isoformat (val : value) : bool :=
  match val with PyDatetime _ => true | _ => false end.

(** [str(val)] *)
Definition str (val : value) : string :=
  match val with
  | PyNone => "None"
  | PyFloat f => str_float f
  | PyInt z => str_int z
  | PyStr s => s
  | PyDatetime d => str_datetime d
  | PyBool b => str_bool b
  end.

(** A replacement field [{val}] of an f-string: [format(val)] with an empty format spec,
    which is [str(val)] for each of these types. *)
Definition format (val : value) : string := str val.

(** ** [range] and slices *)

(** [len(range(start, stop, step))] for [step <> 0]. *)
Definition range_length (start stop step : Z) : Z :=
  if 0 <? step then
    if start <? stop then (stop - start - 1) / step + 1 else 0
  else
    if stop <? start then (start - stop - 1) / (- step) + 1 else 0.

(** [range(start, stop, step)], as the list a [for] loop visits. *)
Definition range (start stop step : Z) : outcome (list Z) :=
  if step =? 0 then Raise ValueError
  else Ok (map (fun i => start + Z.of_nat i * step)
               (seq 0 (Z.to_nat (range_length start stop step)))).

(** A slice bound brought into [0 .. len]: a negative bound counts from
    the end, and bounds are clamped. *)
Definition adjust_index (len i : Z) : Z :=
  if i <? 0 then Z.max 0 (i + len) else Z.min i len.

(** [l[lo:hi]] *)
Definition slice {A : Type} (l : list A) (lo hi : Z) : list A :=
  let len := Z.of_nat (List.length l) in
  let lo' := adjust_index len lo in
  let hi' := adjust_index len hi in
  firstn (Z.to_nat (hi' - lo')) (skipn (Z.to_nat lo') l).

(** ** Tables and data frames *)

Definition row : Type := list value.

(** A pyarrow table after [pq.read_table]: column names and rows, the
    cells already as the Python scalars [to_pandas] produces. *)
Record Table : Type := mk_Table {
  column_names : list string;
  table_rows : list row
}.

Definition num_rows (t : Table) : Z := Z.of_nat (List.length (table_rows t)).

Definition IndexError : exn := ExceptionSubclass "IndexError".
Definition TypeError : exn := ExceptionSubclass "TypeError".

(** [table.slice(offset, length)] *)
Definition Table_slice (t : Table) (offset length : Z) : outcome Table :=
  if offset <? 0 then Raise IndexError
  else
    let offset := Z.min (num_rows t) offset in
    Ok {| column_names := column_names t;
          table_rows := firstn (Z.to_nat length)
                               (skipn (Z.to_nat offset) (table_rows t)) |}.

Record DataFrame : Type := mk_DataFrame {
  columns : list string;
  rows : list row
}.

(** [table.to_pandas()] *)
Definition to_pandas (t : Table) : DataFrame :=
  {| columns := column_names t; rows := table_rows t |}.

(** [len(df)] *)
Definition len (df : DataFrame) : Z := Z.of_nat (List.length (rows df)).

(** [df.iloc[lo:hi]] *)
Definition iloc (df : DataFrame) (lo hi : Z) : DataFrame :=
  {| columns := columns df; rows := slice (rows df) lo hi |}.

(** [df.columns = [c.lower() for c in df.columns]] *)
Definition lower_columns (df : DataFrame) : DataFrame :=
  {| columns := map str_lower (columns df); rows := rows df |}.

(** ** The database client

    Everything the program does to the outside world is appended to a
    history.  The database is an oracle over that history: it decides
    whether [cursor.execute] raises and what the fetches return. *)

Record connection : Type := mk_connection {
  conn_host : string;
  conn_port : Z;
  conn_user : string;
  conn_catalog : string;
  conn_schema : string
}.

(** What the per-batch progress line ([print] in the script,
    [context.log.info] in the asset) and the final line of the script
    report; the text around the numbers is left out, and so are the
    informational lines printed before the loop. *)
Inductive report : Type :=
| Progress (total n : Z)
| Done (total : Z).

Inductive event : Type :=
| EvConnect (c : connection)
| EvExecute (sql : string)
| EvFetchall
| EvFetchone
| EvReport (r : report).

Definition history : Type := list event.

Record database : Type := mk_database {
  execute_raises : history -> string -> option exn;
  fetchall_result : history -> outcome (list row);
  fetchone_result : history -> outcome (option row)
}.

Definition io (A : Type) : Type := history -> outcome A * history.

Definition ret {A} (a : A) : io A := fun h => (Ok a, h).

Definition bind {A B} (c : io A) (k : A -> io B) : io B :=
  fun h =>
    match c h with
    | (Ok a, h') => k a h'
    | (Raise e, h') => (Raise e, h')
    end.

Definition lift {A} (c : outcome A) : io A := fun h => (c, h).

Definition emit (ev : event) : io unit := fun h => (Ok tt, (h ++ [ev])%list).

(** [trino.dbapi.connect(...)] followed by [conn.cursor()] *)
Definition connect (c : connection) : io connection :=
  fun h => (Ok c, (h ++ [EvConnect c])%list).

(** [cursor.execute(sql)] *)
Definition cursor_execute (db : database) (sql : string) : io unit :=
  fun h =>
    match execute_raises db h sql with
    | Some e => (Raise e, (h ++ [EvExecute sql])%list)
    | None => (Ok tt, (h ++ [EvExecute sql])%list)
    end.

(** [cursor.fetchall()] *)
Definition cursor_fetchall (db : database) : io (list row) :=
  fun h => (fetchall_result db h, (h ++ [EvFetchall])%list).

(** [cursor.fetchone()] *)
Definition cursor_fetchone (db : database) : io (option row) :=
  fun h => (fetchone_result db h, (h ++ [EvFetchone])%list).

(** [cursor.fetchone()[0]] *)
Definition first_column (r : option row) : outcome value :=
  match r with
  | None => Raise TypeError
  | Some [] => Raise IndexError
  | Some (v :: _) => Ok v
  end.

(** [try: body  except Exception: handler] *)
Definition try_except_Exception {A} (body handler : io A) : io A :=
  fun h =>
    match body h with
    | (Raise e, h') =>
        if isinstance_Exception e then handler h' else (Raise e, h')
    | r => r
    end.

(** [xs.append(x)] *)
Definition append {A} (xs : list A) (x : A) : list A := (xs ++ [x])%list.

(** [for x in xs: acc = body(x, acc)] *)
Fixpoint for_each {A S} (xs : list A) (body : A -> S -> io S) (acc : S) : io S :=
  match xs with
  | [] => ret acc
  | x :: xs' => bind (body x acc) (for_each xs' body)
  end.

(** [[f(x) for x in xs]] where [f] may raise. *)
Fixpoint map_outcome {A B} (f : A -> outcome B) (xs : list A) : outcome (list B) :=
  match xs with
  | [] => Ok []
  | x :: xs' =>
      obind (f x) (fun y => obind (map_outcome f xs') (fun ys => Ok (y :: ys)))
  end.

Declare Scope io_scope.
Delimit Scope io_scope with io.
Notation "x <- c ;; k" := (bind c (fun x => k))
  (at level 61, c at next level, right associativity) : io_scope.
Notation "c ;; k" := (bind c (fun _ => k))
  (at level 61, right associativity) : io_scope.

End Py.

(* ===================================================================== *)
(** * Files and HTTP, as the download step uses them *)
(* ===================================================================== *)

Module PyFiles.
Import Py.
Local Open Scope string_scope.
Local Open Scope Z_scope.

(** The local disk (path to content, the content as a string of bytes)
    and the URLs requested so far. *)
Record world : Type := mk_world {
  files : string -> option string;
  requested : list string
}.

(** [open(path, "wb")] followed by writes amounting to [content]. *)
Definition write_file (w : world) (path content : string) : world :=
  {| files := fun p => if (p =? path)%string then Some content else files w p;
     requested := requested w |}.

(** [requests.get(url, stream=True)] has been called. *)
Definition record_request (w : world) (url : string) : world :=
  {| files := files w; requested := (requested w ++ [url])%list |}.

(** A streamed response: its status code, the chunks [iter_content]
    yields, and the exception it raises after them when the stream
    breaks. *)
Record response : Type := mk_response {
  status_code : Z;
  body_chunks : list string;
  body_error : option exn
}.

(** The remote server: what [requests.get] returns or raises. *)
Definition remote : Type := string -> outcome response.

(** [pq.ParquetFile(path).metadata.num_rows] on a file of given
    content. *)
Definition parquet_reader : Type := string -> outcome Z.

Definition HTTPError : exn := ExceptionSubclass "HTTPError".
Definition FileNotFoundError : exn := ExceptionSubclass "FileNotFoundError".

(** [resp.raise_for_status()] *)
Definition raise_for_status (resp : response) : outcome unit :=
  if (400 <=? status_code resp) && (status_code resp <? 600)
  then Raise HTTPError else Ok tt.

(** [for chunk in chunks: f.write(chunk)] on a file holding [content]. *)
Fixpoint write_chunks (content : string) (chunks : list string) : string :=
  match chunks with
  | [] => content
  | chunk :: rest => write_chunks (content ++ chunk) rest
  end.

End PyFiles.

(* ===================================================================== *)
(** * scripts/insert_taxi_data.py *)
(* ===================================================================== *)

Module insert_taxi_data.
Import Py.
Local Open Scope string_scope.
Local Open Scope Z_scope.
Local Open Scope io_scope.

Definition TRINO_HOST : string := "localhost".
Definition TRINO_PORT : Z := 8085.
Definition SAMPLE_SIZE : Z := 10000.
Definition BATCH_SIZE : Z := 500.

(** Convert a Python value to a Trino SQL literal. *)
Definition format_value (val : value) : outcome string :=
  if is_None val || (isinstance_float val && (str val =? "nan")%string) then
    Ok "NULL"
  else if isinstance_str val then
    Ok ("'" ++ format val ++ "'")
  else if hasattr_isoformat val then
    Ok ("TIMESTAMP '" ++ format val ++ "'")
  else
    Ok (str val).

(** Lines 70-75: the [INSERT] statement of one batch.  [rows] starts
    empty and gets one parenthesised tuple appended per row. *)
Definition batch_sql (columns : string) (batch : DataFrame) : io string :=
  rows <- for_each (rows batch)
            (fun row rows =>
               formatted <- lift (map_outcome format_value row) ;;
               let vals := str_join ", " formatted in
               ret (append rows ("(" ++ vals ++ ")")))
            [] ;;
  ret ("INSERT INTO yellow_trips (" ++ columns ++ ") VALUES " ++ str_join ", " rows).

(** Lines 68-80: the body of the batch loop, from the current
    [total_inserted] to the next one. *)
Definition insert_batch (db : database) (BATCH_SIZE : Z) (df : DataFrame)
    (columns : string) (start : Z) (total_inserted : Z) : io Z :=
  let batch := iloc df start (start + BATCH_SIZE) in
  sql <- batch_sql columns batch ;;
  cursor_execute db sql ;;
  cursor_fetchall db ;;
  let total_inserted := total_inserted + len batch in
  emit (EvReport (Progress total_inserted (len df))) ;;
  ret total_inserted.

(** Lines 63-80: [columns], [total_inserted = 0] and the [for] loop over
    [range(0, len(df), BATCH_SIZE)]; the value is the final
    [total_inserted]. *)
Definition batch_insert (db : database) (BATCH_SIZE : Z) (df : DataFrame) : io Z :=
  let columns := str_join ", " (columns df) in
  let total_inserted := 0 in
  starts <- lift (range 0 (len df) BATCH_SIZE) ;;
  for_each starts (insert_batch db BATCH_SIZE df columns) total_inserted.

(** Lines 37-82 of [main], with the two configuration constants as
    arguments and the table read from the parquet file as input; the
    value is [total_inserted] as the final line prints it.  The read-only
    verification queries after line 82 are left out. *)
Definition main_with (SAMPLE_SIZE BATCH_SIZE : Z) (db : database) (table : Table)
  : io Z :=
  table <- lift (Table_slice table 0 SAMPLE_SIZE) ;;
  let df := lower_columns (to_pandas table) in
  connect {| conn_host := TRINO_HOST; conn_port := TRINO_PORT;
             conn_user := "admin"; conn_catalog := "iceberg";
             conn_schema := "raw" |} ;;
  total_inserted <- batch_insert db BATCH_SIZE df ;;
  emit (EvReport (Done total_inserted)) ;;
  ret total_inserted.

Definition main : database -> Table -> io Z := main_with SAMPLE_SIZE BATCH_SIZE.

End insert_taxi_data.

(* ===================================================================== *)
(** * lakehouse_pipeline/resources/trino_resource.py *)
(* ===================================================================== *)

Module trino_resource.
Import Py.
Local Open Scope string_scope.
Local Open Scope Z_scope.
Local Open Scope io_scope.

Record TrinoResource : Type := mk_TrinoResource {
  host : string;
  port : Z;
  user : string;
  catalog : string;
  schema : string
}.

(** The field defaults of the class. *)
Definition TrinoResource_default : TrinoResource :=
  {| host := "localhost"; port := 8085; user := "admin";
     catalog := "iceberg"; schema := "raw" |}.

(** [a or b] for an optional string: [None] and the empty string are
    falsy. *)
Definition str_or (a : option string) (b : string) : string :=
  match a with
  | None => b
  | Some s => if (s =? EmptyString)%string then b else s
  end.

Definition get_connection (self : TrinoResource) (schema_arg : option string)
  : io connection :=
  connect {| conn_host := host self; conn_port := port self;
             conn_user := user self; conn_catalog := catalog self;
             conn_schema := str_or schema_arg (schema self) |}.

Definition execute (db : database) (self : TrinoResource) (sql : string)
    (schema_arg : option string) : io (list row) :=
  get_connection self schema_arg ;;
  cursor_execute db sql ;;
  try_except_Exception (cursor_fetchall db) (ret []).

End trino_resource.

(* ===================================================================== *)
(** * lakehouse_pipeline/assets/ingestion.py *)
(* ===================================================================== *)

Module ingestion.
Import Py.
Import trino_resource.
Local Open Scope string_scope.
Local Open Scope Z_scope.
Local Open Scope io_scope.

Definition SAMPLE_SIZE : Z := 10000.
Definition BATCH_SIZE : Z := 500.

Definition _format_value (val : value) : outcome string :=
  if is_None val || (isinstance_float val && (str val =? "nan")%string) then
    Ok "NULL"
  else if isinstance_str val then
    Ok ("'" ++ format val ++ "'")
  else if hasattr_isoformat val then
    Ok ("TIMESTAMP '" ++ format val ++ "'")
  else
    Ok (str val).

(** Lines 111-115: the statement passed to [cursor.execute]. *)
Definition batch_sql (columns : string) (batch : DataFrame) : io string :=
  rows <- for_each (rows batch)
            (fun row rows =>
               formatted <- lift (map_outcome _format_value row) ;;
               let vals := str_join ", " formatted in
               ret (append rows ("(" ++ vals ++ ")")))
            [] ;;
  ret ("INSERT INTO yellow_trips (" ++ columns ++ ") VALUES " ++ str_join ", " rows).

(** Lines 110-118: the body of the batch loop. *)
Definition insert_batch (db : database) (BATCH_SIZE : Z) (df : DataFrame)
    (columns : string) (start : Z) (total : Z) : io Z :=
  let batch := iloc df start (start + BATCH_SIZE) in
  sql <- batch_sql columns batch ;;
  cursor_execute db sql ;;
  cursor_fetchall db ;;
  let total := total + len batch in
  emit (EvReport (Progress total (len df))) ;;
  ret total.

(** Lines 106-118. *)
Definition batch_insert (db : database) (BATCH_SIZE : Z) (df : DataFrame) : io Z :=
  let columns := str_join ", " (columns df) in
  let total := 0 in
  starts <- lift (range 0 (len df) BATCH_SIZE) ;;
  for_each starts (insert_batch db BATCH_SIZE df columns) total.

(** The metadata of the asset's [Output]. *)
Record Output : Type := mk_Output {
  rows_inserted : Z;
  total_snapshots : value
}.

Definition snapshot_count_query : string :=
  "SELECT COUNT(*) FROM iceberg.raw." ++ String "034" "yellow_trips$snapshots"
  ++ String "034" EmptyString.

(** Read parquet and batch-insert into Iceberg via Trino; the table is
    what [pq.read_table(raw_taxi_file)] returned. *)
Definition iceberg_raw_yellow_trips_with (SAMPLE_SIZE BATCH_SIZE : Z)
    (db : database) (table : Table) (trino_resource : TrinoResource) : io Output :=
  table <- lift (Table_slice table 0 SAMPLE_SIZE) ;;
  let df := lower_columns (to_pandas table) in
  get_connection trino_resource (Some "raw") ;;
  total <- batch_insert db BATCH_SIZE df ;;
  cursor_execute db snapshot_count_query ;;
  r <- cursor_fetchone db ;;
  snap_count <- lift (first_column r) ;;
  ret {| rows_inserted := total; total_snapshots := snap_count |}.

Definition iceberg_raw_yellow_trips
  : database -> Table -> TrinoResource -> io Output :=
  iceberg_raw_yellow_trips_with SAMPLE_SIZE BATCH_SIZE.

(** ** The setup asset and the download asset *)

Definition nl : string := String "010" EmptyString.

Definition create_table_statement : string :=
  nl ++ "        CREATE TABLE IF NOT EXISTS iceberg.raw.yellow_trips ("
  ++ nl ++ "            vendorid               INTEGER,"
  ++ nl ++ "            tpep_pickup_datetime   TIMESTAMP(6),"
  ++ nl ++ "            tpep_dropoff_datetime  TIMESTAMP(6),"
  ++ nl ++ "            passenger_count        DOUBLE,"
  ++ nl ++ "            trip_distance          DOUBLE,"
  ++ nl ++ "            ratecodeid             DOUBLE,"
  ++ nl ++ "            store_and_fwd_flag     VARCHAR,"
  ++ nl ++ "            pulocationid           INTEGER,"
  ++ nl ++ "            dolocationid           INTEGER,"
  ++ nl ++ "            payment_type           INTEGER,"
  ++ nl ++ "            fare_amount            DOUBLE,"
  ++ nl ++ "            extra                  DOUBLE,"
  ++ nl ++ "            mta_tax                DOUBLE,"
  ++ nl ++ "            tip_amount             DOUBLE,"
  ++ nl ++ "            tolls_amount           DOUBLE,"
  ++ nl ++ "            improvement_surcharge  DOUBLE,"
  ++ nl ++ "            total_amount           DOUBLE,"
  ++ nl ++ "            congestion_surcharge   DOUBLE,"
  ++ nl ++ "            airport_fee            DOUBLE"
  ++ nl ++ "        ) WITH (format = 'PARQUET')"
  ++ nl ++ "        ".

Definition statements : list string :=
  [ "CREATE SCHEMA IF NOT EXISTS iceberg.raw";
    "CREATE SCHEMA IF NOT EXISTS iceberg.silver";
    "CREATE SCHEMA IF NOT EXISTS iceberg.gold";
    create_table_statement ].

(** Create Iceberg schemas and the raw yellow_trips table; the value is
    the status text of the [Output]. *)
Definition iceberg_schemas (db : database) (trino_resource : TrinoResource)
  : io string :=
  for_each statements
    (fun stmt _ => execute db trino_resource stmt None ;; ret tt) tt ;;
  ret "schemas + table created".

Definition TAXI_BASE_URL : string :=
  "https://d37ci6vzurychx.cloudfront.net/trip-data".

(** The [Output] of the download asset: the local path, the file name
    and the row count of its metadata. *)
Record FileOutput : Type := mk_FileOutput {
  local_path_str : string;
  meta_filename : string;
  meta_total_rows : Z
}.

(** Download NYC yellow taxi parquet for Jan 2024.  [DATA_DIR] is the
    data directory as a string, [net] the server and [pq] the parquet
    reader.  The directory itself ([mkdir] with [exist_ok]) is not part
    of the state, and the two log lines are left out. *)
Definition raw_taxi_file (net : PyFiles.remote) (pq : PyFiles.parquet_reader)
    (DATA_DIR : string) (w : PyFiles.world)
  : outcome FileOutput * PyFiles.world :=
  let filename := "yellow_tripdata_2024-01.parquet" in
  let local_path := DATA_DIR ++ "/" ++ filename in
  let downloaded : outcome unit * PyFiles.world :=
    match PyFiles.files w local_path with
    | Some _ => (Ok tt, w)
    | None =>
        let url := TAXI_BASE_URL ++ "/" ++ filename in
        let w := PyFiles.record_request w url in
        match net url with
        | Raise e => (Raise e, w)
        | Ok resp =>
            match PyFiles.raise_for_status resp with
            | Raise e => (Raise e, w)
            | Ok _ =>
                let w := PyFiles.write_file w local_path
                           (PyFiles.write_chunks EmptyString (PyFiles.body_chunks resp)) in
                match PyFiles.body_error resp with
                | Some e => (Raise e, w)
                | None => (Ok tt, w)
                end
            end
        end
    end in
  match downloaded with
  | (Raise e, w) => (Raise e, w)
  | (Ok _, w) =>
      match PyFiles.files w local_path with
      | None => (Raise PyFiles.FileNotFoundError, w)
      | Some content =>
          match pq content with
          | Raise e => (Raise e, w)
          | Ok num_rows =>
              (Ok {| local_path_str := local_path;
                     meta_filename := filename;
                     meta_total_rows := num_rows |}, w)
          end
      end
  end.

End ingestion.

(* ===================================================================== *)
(** * Vocabulary of the specification *)
(* ===================================================================== *)

Module Spec.
Import Py.
Local Open Scope string_scope.
Local Open Scope Z_scope.

(** The double [3.5], that is [7 * 2^50 * 2^(-51)]. *)
Definition float_3_5 : spec_float := S754_finite false 7881299347898368 (-51).

Definition float_inf : spec_float := S754_infinity false.
Definition float_neg_inf : spec_float := S754_infinity true.

(** The timestamp 2024-01-01T00:00:00. *)
Definition new_year_2024 : datetime := mk_datetime 2024 1 1 0 0 0 0.

(** The first character of [s] is a digit or a minus sign. *)
Definition numeric_head (s : string) : bool :=
  match s with
  | String c _ =>
      let n := N_of_ascii c in
      ((48 <=? n) && (n <=? 57))%N || (n =? 45)%N
  | EmptyString => false
  end.

(** The batches the loop visits, in order: [df.iloc[start : start + B]]
    for [start] in [range(0, len(df), B)]. *)
Definition loop_batches (df : DataFrame) (B : Z) : outcome (list DataFrame) :=
  obind (range 0 (len df) B)
        (fun starts => Ok (map (fun start => iloc df start (start + B)) starts)).

(** The sum of the sizes of a list of batches. *)
Definition total_rows (bs : list DataFrame) : Z :=
  fold_right Z.add 0 (map len bs).

(** A data frame of [n] one-column rows. *)
Definition frame_of_size (n : nat) : DataFrame :=
  {| columns := ["vendorid"]; rows := repeat [PyInt 1] n |}.

(** The value formatter as the specification words it, rule by rule:
    null or NaN gives [NULL]; text is put between single quotes; a
    timestamp gives [TIMESTAMP '...']; everything else is its default
    string. *)
Definition sql_literal (v : value) : string :=
  match v with
  | PyNone => "NULL"
  | PyFloat S754_nan => "NULL"
  | PyStr s => "'" ++ s ++ "'"
  | PyDatetime d => "TIMESTAMP '" ++ isoformat " " d ++ "'"
  | PyFloat f => str_float f
  | PyInt z => str_int z
  | PyBool b => str_bool b
  end.

(** One row-tuple: the formatted values joined with [", "], in
    parentheses. *)
Definition row_tuple (formatted : list string) : string :=
  "(" ++ str_join ", " formatted ++ ")".

(** The insert statement as the specification composes it. *)
Definition spec_insert_statement (table : string) (column_list : list string)
    (batch_rows : list row) : string :=
  "INSERT INTO " ++ table ++ " (" ++ str_join ", " column_list ++ ") VALUES "
  ++ str_join ", " (map (fun r => row_tuple (map sql_literal r)) batch_rows).

(** The statement of the batch that starts at row [start]. *)
Definition statement_at (df : DataFrame) (B start : Z) : string :=
  spec_insert_statement "yellow_trips" (columns df)
                        (rows (iloc df start (start + B))).

(** A database on which no statement and no fetch raises. *)
Definition never_raises (db : database) : Prop :=
  (forall h s, execute_raises db h s = None)
  /\ (forall h, exists r, fetchall_result db h = Ok r)
  /\ (forall h, exists v r, fetchone_result db h = Ok (Some (v :: r))).

(** A database that accepts everything and returns no rows. *)
Definition quiet_db : database :=
  {| execute_raises := fun _ _ => None;
     fetchall_result := fun _ => Ok [];
     fetchone_result := fun _ => Ok (Some [PyInt 1]) |}.

(** A database that rejects the statement submitted after [n] earlier
    submissions, with the error [e]. *)
Definition failing_db (n : nat) (e : exn) : database :=
  {| execute_raises := fun h _ =>
       if (List.length (filter (fun ev => match ev with EvExecute _ => true | _ => false end) h)
           =? n)%nat
       then Some e else None;
     fetchall_result := fun _ => Ok [];
     fetchone_result := fun _ => Ok (Some [PyInt 1]) |}.

(** Two rows that exercise every formatting rule. *)
Definition sample_frame : DataFrame :=
  {| columns := ["vendorid"; "tpep_pickup_datetime"; "fare_amount";
                 "store_and_fwd_flag"; "airport_fee"];
     rows := [ [PyInt 1; PyDatetime new_year_2024; PyFloat float_3_5;
                PyStr "N"; PyFloat S754_nan];
               [PyInt 2; PyDatetime new_year_2024; PyFloat float_3_5;
                PyStr "Y"; PyNone] ] |}.

(** What a run of the loop over [starts] appends to the history when
    every statement goes through, from the running total [total]. *)
Fixpoint success_events (df : DataFrame) (B : Z) (starts : list Z) (total : Z)
  : list event :=
  match starts with
  | [] => []
  | start :: rest =>
      let total' := total + len (iloc df start (start + B)) in
      [EvExecute (statement_at df B start); EvFetchall;
       EvReport (Progress total' (len df))]
      ++ success_events df B rest total'
  end%list.

(** The data frame the loop runs on: the first [SAMPLE_SIZE] rows of the
    table, with lower-cased column names. *)
Definition sampled (table : Table) (SAMPLE_SIZE : Z) : DataFrame :=
  lower_columns
    (to_pandas {| column_names := column_names table;
                  table_rows := firstn (Z.to_nat SAMPLE_SIZE) (table_rows table) |}).

(** The connection [main] opens. *)
Definition script_connection : connection :=
  {| conn_host := "localhost"; conn_port := 8085; conn_user := "admin";
     conn_catalog := "iceberg"; conn_schema := "raw" |}.

(** The connection the asset opens through its resource. *)
Definition asset_connection (r : trino_resource.TrinoResource) : connection :=
  {| conn_host := trino_resource.host r; conn_port := trino_resource.port r;
     conn_user := trino_resource.user r;
     conn_catalog := trino_resource.catalog r; conn_schema := "raw" |}.

(** Lines 120-130 of the asset: the snapshot count query and the
    [Output] built from [total]. *)
Definition asset_tail (db : database) (total : Z) : io ingestion.Output :=
  bind (cursor_execute db ingestion.snapshot_count_query) (fun _ =>
  bind (cursor_fetchone db) (fun r =>
  bind (lift (first_column r)) (fun snap_count =>
  ret {| ingestion.rows_inserted := total;
         ingestion.total_snapshots := snap_count |}))).

(** A table of five one-column rows. *)
Definition five_rows : Table :=
  {| column_names := ["VendorID"];
     table_rows := [[PyInt 1]; [PyInt 2]; [PyInt 3]; [PyInt 4]; [PyInt 5]] |}.

Definition query_error : exn := ExceptionSubclass "TrinoQueryError".

(** The connection [TrinoResource.execute] opens. *)
Definition resource_connection (self : trino_resource.TrinoResource)
    (schema_arg : option string) : connection :=
  {| conn_host := trino_resource.host self;
     conn_port := trino_resource.port self;
     conn_user := trino_resource.user self;
     conn_catalog := trino_resource.catalog self;
     conn_schema := trino_resource.str_or schema_arg (trino_resource.schema self) |}.

(** A database whose statements go through and whose fetches raise [e]. *)
Definition fetch_raising_db (e : exn) : database :=
  {| execute_raises := fun _ _ => None;
     fetchall_result := fun _ => Raise e;
     fetchone_result := fun _ => Raise e |}.

(** ** Vocabulary of the further properties *)

(** The kinds of SQL literal the formatter writes. *)
Inductive literal_class : Type :=
| CNull | CStr | CTimestamp | CBool | CFloat | CInt.

(** The kind of literal a value should get: [None] and the NaN are both
    nulls. *)
Definition class_of (v : value) : literal_class :=
  match v with
  | PyNone => CNull
  | PyFloat S754_nan => CNull
  | PyFloat _ => CFloat
  | PyInt _ => CInt
  | PyStr _ => CStr
  | PyDatetime _ => CTimestamp
  | PyBool _ => CBool
  end.

Fixpoint has_char (c : ascii) (s : string) : bool :=
  match s with
  | EmptyString => false
  | String c' s' => Ascii.eqb c c' || has_char c s'
  end.

(** Reading the kind back from the text of a literal. *)
Definition literal_class_of (s : string) : literal_class :=
  if (s =? "NULL")%string then CNull
  else
    match s with
    | String "'" _ => CStr
    | String "T" (String "I" _) => CTimestamp
    | String "T" _ => CBool
    | String "F" _ => CBool
    | _ =>
        if has_char "." s || has_char "e" s || has_char "n" s
        then CFloat else CInt
    end.

(** Every character is a digit or a minus sign. *)
Fixpoint only_numeric (s : string) : bool :=
  match s with
  | EmptyString => true
  | String c s' => numeric_head (String c EmptyString) && only_numeric s'
  end.

(** The statements handed to [cursor.execute] among some events. *)
Definition submitted (evs : list event) : list string :=
  flat_map (fun ev => match ev with EvExecute sql => [sql] | _ => [] end) evs.

(** The running totals shown by the progress reports among some events. *)
Definition progress_totals (evs : list event) : list Z :=
  flat_map (fun ev => match ev with EvReport (Progress t _) => [t] | _ => [] end)
           evs.



(** What the setup asset appends to the history for each statement that
    goes through: a fresh connection, the statement, the fetch. *)
Definition setup_events (r : trino_resource.TrinoResource)
    (stmts : list string) : list event :=
  flat_map (fun stmt => [EvConnect (resource_connection r None);
                         EvExecute stmt; EvFetchall]) stmts.

(** The body of the loop of the setup asset. *)
Definition setup_step (db : database) (r : trino_resource.TrinoResource)
    (stmt : string) (_ : unit) : io unit :=
  bind (trino_resource.execute db r stmt None) (fun _ => ret tt).

(** The connections opened among some events. *)
Definition connections (evs : list event) : list connection :=
  flat_map (fun ev => match ev with EvConnect c => [c] | _ => [] end) evs.

(** The chunks of a download, one after the other. *)
Definition joined (chunks : list string) : string :=
  fold_right String.append EmptyString chunks.

(** The path and the URL of the download asset. *)
Definition taxi_path (DATA_DIR : string) : string :=
  DATA_DIR ++ "/yellow_tripdata_2024-01.parquet".

Definition taxi_url : string :=
  "https://d37ci6vzurychx.cloudfront.net/trip-data/yellow_tripdata_2024-01.parquet".

(** What the download asset returns once the file is on disk. *)
Definition read_local (pq : PyFiles.parquet_reader) (DATA_DIR content : string)
  : outcome ingestion.FileOutput :=
  match pq content with
  | Raise e => Raise e
  | Ok num_rows =>
      Ok {| ingestion.local_path_str := taxi_path DATA_DIR;
            ingestion.meta_filename := "yellow_tripdata_2024-01.parquet";
            ingestion.meta_total_rows := num_rows |}
  end.

(** A disk without files and no request made. *)
Definition empty_world : PyFiles.world :=
  {| PyFiles.files := fun _ => None; PyFiles.requested := [] |}.

(** A server whose stream breaks after the chunks ["PAR1"] and ["abc"]. *)
Definition broken_server : PyFiles.remote :=
  fun _ => Ok {| PyFiles.status_code := 200;
                 PyFiles.body_chunks := ["PAR1"; "abc"];
                 PyFiles.body_error := Some (ExceptionSubclass "ChunkedEncodingError") |}.

(** A server that answers 404. *)
Definition missing_server : PyFiles.remote :=
  fun _ => Ok {| PyFiles.status_code := 404;
                 PyFiles.body_chunks := ["Not Found"];
                 PyFiles.body_error := None |}.

(** A server that delivers the chunks ["PAR1"] and ["abc"]. *)
Definition good_server : PyFiles.remote :=
  fun _ => Ok {| PyFiles.status_code := 200;
                 PyFiles.body_chunks := ["PAR1"; "abc"];
                 PyFiles.body_error := None |}.

(** A reader that accepts only the content ["PAR1abc"], of 7 rows. *)
Definition strict_reader : PyFiles.parquet_reader :=
  fun content =>
    if (content =? "PAR1abc")%string then Ok 7
    else Raise (ExceptionSubclass "ArrowInvalid").

End Spec.

(* ===================================================================== *)
(** * The value formatter *)
(* ===================================================================== *)

Section Formatter.
Import Py Spec.
Local Open Scope string_scope.
Local Open Scope Z_scope.

(** The copy in the asset module is the same function. *)
Lemma _format_value_eq (v : value) :
  ingestion._format_value v = insert_taxi_data.format_value v.
Proof. reflexivity. Qed.

(** [3.5] is a canonical binary64 number. *)
Remark float_3_5_bounded : bounded 53 1024 7881299347898368 (-51) = true.
Proof. reflexivity. Qed.

Lemma numeric_head_uint (u : Decimal.uint) :
  numeric_head (NilZero.string_of_uint u) = true.
Proof. destruct u; reflexivity. Qed.

Lemma numeric_head_str_int (z : Z) : numeric_head (str_int z) = true.
Proof.
  unfold str_int. destruct (Z.to_int z) as [u | u]; simpl.
  - apply numeric_head_uint.
  - reflexivity.
Qed.

Lemma numeric_head_app (s t : string) :
  numeric_head s = true -> numeric_head (s ++ t) = true.
Proof. destruct s; simpl; [discriminate | auto]. Qed.

Lemma numeric_head_format_repr (ds : string) (decpt : Z) :
  numeric_head ds = true -> numeric_head (format_repr ds decpt) = true.
Proof.
  intros H. unfold format_repr.
  destruct ((decpt <=? -4) || (16 <? decpt)).
  - apply numeric_head_app.
    destruct ds as [| c [| c' rest]]; simpl in *; auto.
  - destruct (Z.leb_spec decpt 0); [reflexivity |].
    destruct (decpt <? Z.of_nat (String.length ds)).
    + apply numeric_head_app.
      destruct ds as [| c rest]; [discriminate |].
      destruct (Z.to_nat decpt) eqn:E; [lia |]. simpl. exact H.
    + apply numeric_head_app. exact H.
Qed.

Lemma numeric_head_finite (s : bool) (m : positive) (e : Z) :
  numeric_head (str_float (S754_finite s m e)) = true.
Proof.
  unfold str_float. destruct (shortest_digits m e) as [ds decpt] eqn:E.
  assert (Hds : numeric_head ds = true).
  { unfold shortest_digits in E.
    destruct (shortest 17 m e _ 1) as [d q].
    destruct (strip_zeros 17 d q) as [d' q'].
    injection E as <- _. apply numeric_head_str_int. }
  destruct s; simpl.
  - reflexivity.
  - apply numeric_head_format_repr, Hds.
Qed.

(** [str] of a float is ["nan"] exactly for the NaN. *)
Lemma str_float_nan_iff (f : spec_float) :
  str_float f = "nan" <-> f = S754_nan.
Proof.
  split.
  - destruct f as [s | s | | s m e]; try (destruct s; discriminate); auto.
    intros H. pose proof (numeric_head_finite s m e) as N.
    rewrite H in N. discriminate.
  - intros ->. reflexivity.
Qed.

Lemma numeric_head_str_float (f : spec_float) :
  numeric_head (str_float f) = true \/ str_float f = "inf" \/ str_float f = "nan".
Proof.
  destruct f as [s | s | | s m e].
  - left. destruct s; reflexivity.
  - destruct s; [left; reflexivity | right; left; reflexivity].
  - right; right; reflexivity.
  - left. apply numeric_head_finite.
Qed.

(** A string known to open with a digit or a minus sign, or to be [inf]
    or [nan], cannot be the string [H] says it is. *)
Ltac head_clash H :=
  match goal with
  | N : numeric_head _ = true |- _ => rewrite H in N; discriminate N
  | N : _ = _ :> string |- _ => rewrite H in N; discriminate N
  end.

Lemma format_value_float (f : spec_float) :
  insert_taxi_data.format_value (PyFloat f)
  = if (str_float f =? "nan")%string then Ok "NULL" else Ok (str_float f).
Proof.
  unfold insert_taxi_data.format_value. simpl.
  destruct (str_float f =? "nan")%string; reflexivity.
Qed.

Lemma str_float_not_NULL (f : spec_float) : str_float f <> "NULL".
Proof.
  intros H.
  destruct (numeric_head_str_float f) as [N | [N | N]]; head_clash H.
Qed.

Lemma format_value_NULL (v : value) :
  insert_taxi_data.format_value v = Ok "NULL"
  <-> v = PyNone \/ exists f, v = PyFloat f /\ str (PyFloat f) = "nan".
Proof.
  split.
  - destruct v as [| f | z | s | d | b].
    + auto.
    + rewrite format_value_float. simpl.
      destruct (String.eqb_spec (str_float f) "nan") as [E | E].
      * intros _. right. exists f. auto.
      * intros H. injection H as H. destruct (str_float_not_NULL f H).
    + unfold insert_taxi_data.format_value. simpl. intros H. injection H as H.
      pose proof (numeric_head_str_int z) as N. head_clash H.
    + unfold insert_taxi_data.format_value. simpl. discriminate.
    + unfold insert_taxi_data.format_value. simpl. discriminate.
    + destruct b; unfold insert_taxi_data.format_value; simpl; discriminate.
  - intros [-> | [f [-> H]]].
    + reflexivity.
    + rewrite format_value_float. simpl in H. rewrite H. reflexivity.
Qed.

(** C1: [format_value], and its copy [_format_value], return ["NULL"]
    exactly for [None] and for a float whose [str] is ["nan"], which is
    the NaN; [None] gives ["NULL"] and the float [3.5] gives the unquoted
    ["3.5"]. *)
Theorem format_value_NULL_iff :
  (forall v : value,
      (insert_taxi_data.format_value v = Ok "NULL"
       <-> v = PyNone \/ exists f, v = PyFloat f /\ str (PyFloat f) = "nan")
      /\ (ingestion._format_value v = Ok "NULL"
          <-> v = PyNone \/ exists f, v = PyFloat f /\ str (PyFloat f) = "nan"))
  /\ (forall f : spec_float, str (PyFloat f) = "nan" <-> f = S754_nan)
  /\ insert_taxi_data.format_value PyNone = Ok "NULL"
  /\ ingestion._format_value PyNone = Ok "NULL"
  /\ insert_taxi_data.format_value (PyFloat float_3_5) = Ok "3.5"
  /\ ingestion._format_value (PyFloat float_3_5) = Ok "3.5".
Proof.
  repeat apply conj.
  - intros v. split; exact (format_value_NULL v).
  - intros f. apply str_float_nan_iff.
  - reflexivity.
  - reflexivity.
  - vm_compute. reflexivity.
  - vm_compute. reflexivity.
Qed.

(** [str] of a [datetime] is its ISO-8601 form with a space between the
    date and the time, not the ['T'] of a bare [isoformat()] call. *)
Remark str_datetime_new_year :
  str (PyDatetime new_year_2024) = "2024-01-01 00:00:00"
  /\ isoformat "T" new_year_2024 = "2024-01-01T00:00:00".
Proof. split; reflexivity. Qed.

(** C4: a value with an [isoformat] attribute is formatted as
    [TIMESTAMP '<r>'], where [<r>] is its ISO-8601 representation with a
    space separator ([isoformat(sep=' ')], which is what [str] gives);
    2024-01-01T00:00:00 becomes [TIMESTAMP '2024-01-01 00:00:00']. *)
Theorem format_value_timestamp :
  (forall v : value,
      hasattr_isoformat v = true ->
      is_None v = false -> isinstance_float v = false -> isinstance_str v = false ->
      exists d : datetime,
        v = PyDatetime d
        /\ insert_taxi_data.format_value v = Ok ("TIMESTAMP '" ++ isoformat " " d ++ "'")
        /\ ingestion._format_value v = Ok ("TIMESTAMP '" ++ isoformat " " d ++ "'"))
  /\ insert_taxi_data.format_value (PyDatetime new_year_2024)
     = Ok "TIMESTAMP '2024-01-01 00:00:00'"
  /\ ingestion._format_value (PyDatetime new_year_2024)
     = Ok "TIMESTAMP '2024-01-01 00:00:00'".
Proof.
  split; [| split; reflexivity].
  intros v H _ _ _. destruct v; try discriminate.
  exists d. repeat split.
Qed.

Lemma format_value_timestamp_witness :
  exists d : datetime,
    PyDatetime new_year_2024 = PyDatetime d
    /\ insert_taxi_data.format_value (PyDatetime new_year_2024)
       = Ok ("TIMESTAMP '" ++ isoformat " " d ++ "'")
    /\ ingestion._format_value (PyDatetime new_year_2024)
       = Ok ("TIMESTAMP '" ++ isoformat " " d ++ "'").
Proof.
  apply (proj1 format_value_timestamp (PyDatetime new_year_2024)); reflexivity.
Defined.

Lemma format_value_quote_only_str (v : value) (t : string) :
  insert_taxi_data.format_value v = Ok ("'" ++ t) -> exists s, v = PyStr s.
Proof.
  destruct v as [| f | z | s | d | b].
  - discriminate.
  - rewrite format_value_float.
    destruct (str_float f =? "nan")%string; [discriminate |].
    intros H. injection H as H.
    destruct (numeric_head_str_float f) as [N | [N | N]]; head_clash H.
  - unfold insert_taxi_data.format_value. simpl. intros H. injection H as H.
    pose proof (numeric_head_str_int z) as N. head_clash H.
  - eauto.
  - unfold insert_taxi_data.format_value. simpl. discriminate.
  - destruct b; unfold insert_taxi_data.format_value; simpl; discriminate.
Qed.

(** C5: a string [s] is formatted as [s] between single quotes, with no
    character of [s] escaped, also when [s] holds single quotes; and a
    result that opens with a single quote comes only from a string. *)
Theorem format_value_str_quoted :
  (forall s : string,
      insert_taxi_data.format_value (PyStr s) = Ok ("'" ++ s ++ "'")
      /\ ingestion._format_value (PyStr s) = Ok ("'" ++ s ++ "'"))
  /\ insert_taxi_data.format_value (PyStr "O'Hare") = Ok "'O'Hare'"
  /\ (forall (v : value) (t : string),
         insert_taxi_data.format_value v = Ok ("'" ++ t)
         \/ ingestion._format_value v = Ok ("'" ++ t) ->
         exists s, v = PyStr s).
Proof.
  split; [| split].
  - intros s. split; reflexivity.
  - reflexivity.
  - intros v t [H | H]; exact (format_value_quote_only_str v t H).
Qed.

Lemma format_value_str_quoted_witness :
  exists s, PyStr "CASH" = PyStr s.
Proof.
  apply (proj2 (proj2 format_value_str_quoted) (PyStr "CASH") "CASH'").
  left. reflexivity.
Defined.



(** C9: only the text ["nan"] of a float is turned into [NULL]: every
    other float goes to the default branch, so the infinities come out as
    [inf] and [-inf], and the booleans as [True] and [False], unquoted. *)
Theorem format_value_inf_bool :
  (forall f : spec_float,
      f <> S754_nan ->
      insert_taxi_data.format_value (PyFloat f) = Ok (str (PyFloat f))
      /\ ingestion._format_value (PyFloat f) = Ok (str (PyFloat f)))
  /\ (forall b : bool,
         insert_taxi_data.format_value (PyBool b) = Ok (str (PyBool b))
         /\ ingestion._format_value (PyBool b) = Ok (str (PyBool b)))
  /\ insert_taxi_data.format_value (PyFloat float_inf) = Ok "inf"
  /\ insert_taxi_data.format_value (PyFloat float_neg_inf) = Ok "-inf"
  /\ insert_taxi_data.format_value (PyBool true) = Ok "True"
  /\ insert_taxi_data.format_value (PyBool false) = Ok "False"
  /\ ingestion._format_value (PyFloat float_inf) = Ok "inf"
  /\ ingestion._format_value (PyFloat float_neg_inf) = Ok "-inf"
  /\ ingestion._format_value (PyBool true) = Ok "True"
  /\ ingestion._format_value (PyBool false) = Ok "False".
Proof.
  repeat apply conj; try reflexivity.
  - intros f Hf.
    assert (H : insert_taxi_data.format_value (PyFloat f) = Ok (str (PyFloat f))).
    { rewrite format_value_float.
      destruct (String.eqb_spec (str_float f) "nan") as [E | E].
      + apply str_float_nan_iff in E. contradiction.
      + reflexivity. }
    split; exact H.
  - intros b. destruct b; split; reflexivity.
Qed.

Lemma format_value_inf_bool_witness :
  insert_taxi_data.format_value (PyFloat float_inf) = Ok (str (PyFloat float_inf))
  /\ ingestion._format_value (PyFloat float_inf) = Ok (str (PyFloat float_inf)).
Proof.
  apply (proj1 format_value_inf_bool float_inf). discriminate.
Defined.

End Formatter.

(* ===================================================================== *)
(** * The row batcher *)
(* ===================================================================== *)

Section Batcher.
Import Py Spec.
Local Open Scope Z_scope.

Lemma range_length_positive (N B : Z) :
  0 < B -> 0 <= N -> range_length 0 N B = (N + B - 1) / B.
Proof.
  intros HB HN. unfold range_length.
  destruct (Z.ltb_spec 0 B); [| lia].
  destruct (Z.ltb_spec 0 N).
  - replace (N + B - 1) with (N - 0 - 1 + 1 * B) by lia.
    rewrite Z.div_add by lia. reflexivity.
  - replace N with 0 by lia. rewrite Z.div_small by lia. reflexivity.
Qed.

(** The ceiling of [N / B]. *)
Lemma ceiling_bounds (N B : Z) :
  0 < B -> 0 <= N ->
  let n := (N + B - 1) / B in
  0 <= n /\ (n - 1) * B < N <= n * B.
Proof.
  intros HB HN n. subst n.
  pose proof (Z.div_mod (N + B - 1) B ltac:(lia)) as E.
  pose proof (Z.mod_pos_bound (N + B - 1) B HB) as M.
  pose proof (Z.div_pos (N + B - 1) B ltac:(lia) HB).
  nia.
Qed.

Lemma range_positive (N B : Z) :
  0 < B -> 0 <= N ->
  range 0 N B
  = Ok (map (fun i => Z.of_nat i * B) (seq 0 (Z.to_nat ((N + B - 1) / B)))).
Proof.
  intros HB HN. unfold range.
  destruct (Z.eqb_spec B 0); [lia |].
  rewrite range_length_positive by assumption. reflexivity.
Qed.

Lemma firstn_app_skipn {A} (l : list A) (a b : nat) :
  (a <= b)%nat -> (firstn a l ++ firstn (b - a) (skipn a l))%list = firstn b l.
Proof.
  intros H. rewrite <- (firstn_skipn a (firstn b l)).
  rewrite firstn_firstn, Nat.min_l by assumption.
  rewrite skipn_firstn_comm. reflexivity.
Qed.

(** A slice with bounds [0 <= a <= b]. *)
Lemma slice_nonneg {A} (l : list A) (a b : Z) :
  0 <= a <= b ->
  let N := Z.of_nat (List.length l) in
  slice l a b
  = firstn (Z.to_nat (Z.min b N) - Z.to_nat (Z.min a N))
           (skipn (Z.to_nat (Z.min a N)) l).
Proof.
  intros H N. unfold slice, adjust_index. fold N.
  destruct (Z.ltb_spec a 0); [lia |].
  destruct (Z.ltb_spec b 0); [lia |].
  f_equal. lia.
Qed.

(** The first [k] slices of width [B] make up the first [k * B] rows. *)
Lemma concat_slices {A} (l : list A) (B : Z) (k : nat) :
  0 < B ->
  List.concat (map (fun start => slice l start (start + B))
              (map (fun i => Z.of_nat i * B) (seq 0 k)))
  = firstn (Z.to_nat (Z.min (Z.of_nat k * B) (Z.of_nat (List.length l)))) l.
Proof.
  intros HB. induction k as [| k IH].
  - simpl. rewrite Z.min_l by lia. reflexivity.
  - rewrite seq_S, !map_app, concat_app, IH.
    cbn [map List.concat Nat.add]. rewrite app_nil_r, slice_nonneg by lia.
    replace (Z.of_nat k * B + B) with (Z.of_nat (S k) * B) by lia.
    apply firstn_app_skipn. lia.
Qed.

Lemma total_rows_concat (bs : list DataFrame) :
  total_rows bs = Z.of_nat (List.length (List.concat (map rows bs))).
Proof.
  unfold total_rows. induction bs as [| b bs IH]; [reflexivity |].
  cbn [map fold_right List.concat]. rewrite length_app, IH. unfold len. lia.
Qed.

(** With a positive step the starts exist and their batches hold every
    row once. *)
Lemma range_batches_total (df : DataFrame) (B : Z) :
  0 < B ->
  exists starts : list Z,
    range 0 (len df) B = Ok starts
    /\ total_rows (map (fun s => iloc df s (s + B)) starts) = len df.
Proof.
  intros HB.
  assert (HN : 0 <= len df) by (unfold len; lia).
  destruct (ceiling_bounds (len df) B HB HN) as [Hn0 Hn].
  eexists. split; [apply range_positive; assumption |].
  rewrite total_rows_concat, map_map.
  change (fun x => rows (iloc df x (x + B)))
    with (fun start => slice (rows df) start (start + B)).
  rewrite concat_slices by assumption.
  rewrite firstn_all2; [reflexivity |]. unfold len in *. lia.
Qed.

(** The batch that starts at row [i * B], when that row exists. *)
Lemma batch_rows (df : DataFrame) (B : Z) (i : nat) :
  0 < B -> Z.of_nat i * B <= len df ->
  rows (iloc df (Z.of_nat i * B) (Z.of_nat i * B + B))
  = firstn (Z.to_nat (Z.min ((Z.of_nat i + 1) * B) (len df) - Z.of_nat i * B))
           (skipn (Z.to_nat (Z.of_nat i * B)) (rows df)).
Proof.
  intros HB Hi. unfold iloc, len in *. cbn [rows].
  rewrite slice_nonneg by lia.
  rewrite (Z.min_l (Z.of_nat i * B)) by lia.
  f_equal. lia.
Qed.


(** The sizes for the 1050-row table of the specification's example. *)
Remark batches_1050_by_500 :
  obind (loop_batches (frame_of_size 1050) 500) (fun bs => Ok (map len bs))
  = Ok [500; 500; 50].
Proof. vm_compute. reflexivity. Qed.


End Batcher.

(* ===================================================================== *)
(** * The insert emitter *)
(* ===================================================================== *)

Section Emitter.
Import Py Spec.
Local Open Scope string_scope.
Local Open Scope Z_scope.

(** The formatter computes the literal of the specification. *)
Lemma format_value_literal (v : value) :
  insert_taxi_data.format_value v = Ok (sql_literal v).
Proof.
  destruct v as [| f | z | s | d | b]; try reflexivity.
  rewrite format_value_float.
  destruct (String.eqb_spec (str_float f) "nan") as [E | E].
  - apply str_float_nan_iff in E. subst f. reflexivity.
  - destruct f; try reflexivity. contradiction E. reflexivity.
Qed.

Lemma map_format_value (r : row) :
  map_outcome insert_taxi_data.format_value r = Ok (map sql_literal r).
Proof.
  induction r as [| v r IH]; [reflexivity |].
  cbn [map_outcome map]. rewrite format_value_literal, IH. reflexivity.
Qed.

(** The inner loop appends one tuple per row to [acc]. *)
Lemma row_loop (rs : list row) (acc : list string) (h : history) :
  for_each rs
    (fun row rows =>
       bind (lift (map_outcome insert_taxi_data.format_value row))
            (fun formatted =>
               ret (append rows ("(" ++ str_join ", " formatted ++ ")"))))
    acc h
  = (Ok (acc ++ map (fun r => row_tuple (map sql_literal r)) rs)%list, h).
Proof.
  revert acc. induction rs as [| r rs IH]; intros acc.
  - cbn. rewrite app_nil_r. reflexivity.
  - cbn [for_each map]. unfold bind at 1. unfold bind at 1.
    unfold lift. rewrite map_format_value. unfold ret at 1.
    rewrite IH. unfold append. rewrite <- app_assoc. reflexivity.
Qed.

Lemma batch_sql_run (df batch : DataFrame) (h : history) :
  insert_taxi_data.batch_sql (str_join ", " (columns df)) batch h
  = (Ok (spec_insert_statement "yellow_trips" (columns df) (rows batch)), h).
Proof.
  unfold insert_taxi_data.batch_sql, bind. rewrite row_loop. reflexivity.
Qed.

(** The asset runs the same loop as the script. *)
Lemma batch_insert_eq (db : database) (B : Z) (df : DataFrame) :
  ingestion.batch_insert db B df = insert_taxi_data.batch_insert db B df.
Proof. reflexivity. Qed.

(** One iteration of the batch loop, by what the database answers. *)
Lemma insert_batch_run (db : database) (B : Z) (df : DataFrame)
    (start total : Z) (h : history) :
  let batch := iloc df start (start + B) in
  let sql := statement_at df B start in
  insert_taxi_data.insert_batch db B df (str_join ", " (columns df)) start total h
  = match execute_raises db h sql with
    | Some e => (Raise e, h ++ [EvExecute sql])%list
    | None =>
        match fetchall_result db (h ++ [EvExecute sql])%list with
        | Raise e => (Raise e, h ++ [EvExecute sql; EvFetchall])%list
        | Ok _ =>
            (Ok (total + len batch),
             h ++ [EvExecute sql; EvFetchall;
                   EvReport (Progress (total + len batch) (len df))])%list
        end
    end.
Proof.
  intros batch sql. subst batch sql. unfold statement_at.
  set (batch := iloc df start (start + B)).
  set (sql := spec_insert_statement "yellow_trips" (columns df) (rows batch)).
  unfold insert_taxi_data.insert_batch. fold batch.
  unfold bind at 1. rewrite batch_sql_run. fold sql.
  unfold bind at 1. unfold cursor_execute.
  destruct (execute_raises db h sql) as [e |]; [reflexivity |].
  unfold bind at 1. unfold cursor_fetchall.
  destruct (fetchall_result db (h ++ [EvExecute sql])%list) as [r | e].
  - unfold bind, emit, ret. rewrite <- !app_assoc. reflexivity.
  - rewrite <- app_assoc. reflexivity.
Qed.

(** C6: the statement of a batch is [INSERT INTO yellow_trips (<columns>)
    VALUES <tuples>], where [<columns>] is the column list joined with
    [", "], each tuple is a row's formatted values in column order joined
    with [", "] and put in parentheses, and the tuples are joined with
    [", "]; this is the string handed to [cursor.execute]. *)
Theorem insert_statement_composition (db : database) (B : Z) (df : DataFrame)
    (start total : Z) (h : history) :
  let batch := iloc df start (start + B) in
  let sql := spec_insert_statement "yellow_trips" (columns df) (rows batch) in
  insert_taxi_data.batch_sql (str_join ", " (columns df)) batch h = (Ok sql, h)
  /\ ingestion.batch_sql (str_join ", " (columns df)) batch h = (Ok sql, h)
  /\ (exists r evs,
         insert_taxi_data.insert_batch db B df (str_join ", " (columns df))
                                       start total h
         = (r, h ++ EvExecute sql :: evs)%list)
  /\ (exists r evs,
         ingestion.insert_batch db B df (str_join ", " (columns df))
                                start total h
         = (r, h ++ EvExecute sql :: evs)%list)
  /\ spec_insert_statement "yellow_trips" (columns sample_frame) (rows sample_frame)
     = "INSERT INTO yellow_trips (vendorid, tpep_pickup_datetime, fare_amount, store_and_fwd_flag, airport_fee) VALUES (1, TIMESTAMP '2024-01-01 00:00:00', 3.5, 'N', NULL), (2, TIMESTAMP '2024-01-01 00:00:00', 3.5, 'Y', NULL)".
Proof.
  intros batch sql.
  assert (R : exists r evs,
             insert_taxi_data.insert_batch db B df (str_join ", " (columns df))
                                           start total h
             = (r, h ++ EvExecute sql :: evs)%list).
  { rewrite insert_batch_run. unfold statement_at. fold batch. fold sql.
    destruct (execute_raises db h sql); [eauto |].
    destruct (fetchall_result db (h ++ [EvExecute sql])%list); eauto. }
  repeat apply conj.
  - apply batch_sql_run.
  - exact (batch_sql_run df batch h).
  - exact R.
  - exact R.
  - vm_compute. reflexivity.
Qed.

Lemma for_each_app {A S : Type} (xs ys : list A) (body : A -> S -> io S)
    (acc : S) (h : history) :
  for_each (xs ++ ys) body acc h
  = match for_each xs body acc h with
    | (Ok acc', h') => for_each ys body acc' h'
    | (Raise e, h') => (Raise e, h')
    end.
Proof.
  revert acc h. induction xs as [| x xs IH]; intros acc h.
  - reflexivity.
  - rewrite <- app_comm_cons. cbn [for_each]. unfold bind.
    destruct (body x acc h) as [[acc' | e] h']; [apply IH | reflexivity].
Qed.

(** The loop invariant: when the iterations over [starts] all return,
    the total has grown by the sizes of their batches, and the history by
    their statements, fetches and progress reports. *)
Lemma loop_invariant (db : database) (B : Z) (df : DataFrame) (starts : list Z) :
  forall (total : Z) (h : history) (total' : Z) (h' : history),
    for_each starts
      (insert_taxi_data.insert_batch db B df (str_join ", " (columns df)))
      total h = (Ok total', h') ->
    total' = total + total_rows (map (fun s => iloc df s (s + B)) starts)
    /\ h' = (h ++ success_events df B starts total)%list.
Proof.
  induction starts as [| s starts IH]; intros total h total' h' H.
  - cbn in H. injection H as <- <-. unfold total_rows. cbn.
    rewrite app_nil_r. split; [lia | reflexivity].
  - cbn [for_each] in H. unfold bind in H. rewrite insert_batch_run in H.
    destruct (execute_raises db h (statement_at df B s)); [discriminate |].
    destruct (fetchall_result db _); [| discriminate].
    apply IH in H. destruct H as [-> ->]. cbn [map success_events].
    unfold total_rows. cbn [map fold_right]. rewrite <- app_assoc.
    split; [lia | reflexivity].
Qed.

(** On a database that never raises every iteration returns. *)
Lemma loop_completes (db : database) (B : Z) (df : DataFrame) :
  never_raises db ->
  forall (starts : list Z) (total : Z) (h : history),
    for_each starts
      (insert_taxi_data.insert_batch db B df (str_join ", " (columns df)))
      total h
    = (Ok (total + total_rows (map (fun s => iloc df s (s + B)) starts)),
       (h ++ success_events df B starts total)%list).
Proof.
  intros (He & Hf & _). induction starts as [| s starts IH]; intros total h.
  - cbn. unfold total_rows, ret. cbn. rewrite app_nil_r. do 2 f_equal. lia.
  - cbn [for_each]. unfold bind. rewrite insert_batch_run, He.
    destruct (Hf (h ++ [EvExecute (statement_at df B s)])%list) as [r ->].
    rewrite IH. cbn [map success_events]. unfold total_rows.
    cbn [map fold_right]. rewrite <- app_assoc. do 2 f_equal. lia.
Qed.

(** The loop stops at the first statement the database rejects. *)
Lemma loop_stops (db : database) (B : Z) (df : DataFrame) (starts : list Z)
    (k : nat) (start : Z) (e : exn) (total total' : Z) (h h' : history) :
  nth_error starts k = Some start ->
  for_each (firstn k starts)
    (insert_taxi_data.insert_batch db B df (str_join ", " (columns df)))
    total h = (Ok total', h') ->
  execute_raises db h' (statement_at df B start) = Some e ->
  for_each starts
    (insert_taxi_data.insert_batch db B df (str_join ", " (columns df)))
    total h
  = (Raise e, (h' ++ [EvExecute (statement_at df B start)])%list).
Proof.
  intros Hk Hpre He.
  rewrite <- (firstn_skipn k starts) at 1.
  rewrite for_each_app, Hpre.
  assert (E : skipn k starts = start :: skipn (S k) starts).
  { clear - Hk. revert k Hk. induction starts as [| x xs IH]; intros [| k] Hk;
      try discriminate.
    - injection Hk as ->. reflexivity.
    - cbn in Hk. cbn [skipn]. rewrite (IH k Hk). reflexivity. }
  rewrite E. cbn [for_each]. unfold bind. rewrite insert_batch_run, He.
  reflexivity.
Qed.

Lemma Table_slice_sample (table : Table) (SAMPLE_SIZE : Z) :
  Table_slice table 0 SAMPLE_SIZE
  = Ok {| column_names := column_names table;
          table_rows := firstn (Z.to_nat SAMPLE_SIZE) (table_rows table) |}.
Proof.
  unfold Table_slice. cbn [Z.ltb Z.compare].
  rewrite Z.min_r by (unfold num_rows; lia). reflexivity.
Qed.

Lemma len_sampled (table : Table) (SAMPLE_SIZE : Z) :
  0 <= SAMPLE_SIZE ->
  len (sampled table SAMPLE_SIZE) = Z.min (num_rows table) SAMPLE_SIZE.
Proof.
  intros H. unfold len, sampled, num_rows. cbn [rows lower_columns to_pandas table_rows].
  rewrite length_firstn. lia.
Qed.

Lemma main_with_run (SAMPLE_SIZE B : Z) (db : database) (table : Table)
    (h0 : history) :
  insert_taxi_data.main_with SAMPLE_SIZE B db table h0
  = match insert_taxi_data.batch_insert db B (sampled table SAMPLE_SIZE)
            (h0 ++ [EvConnect script_connection])%list with
    | (Ok total, h') => (Ok total, (h' ++ [EvReport (Done total)])%list)
    | (Raise e, h') => (Raise e, h')
    end.
Proof.
  unfold insert_taxi_data.main_with.
  unfold bind at 1. unfold lift. rewrite Table_slice_sample.
  unfold bind at 1. unfold connect.
  unfold bind at 1. fold (sampled table SAMPLE_SIZE).
  change {| conn_host := insert_taxi_data.TRINO_HOST;
            conn_port := insert_taxi_data.TRINO_PORT;
            conn_user := "admin"; conn_catalog := "iceberg";
            conn_schema := "raw" |} with script_connection.
  destruct (insert_taxi_data.batch_insert db B (sampled table SAMPLE_SIZE)
              (h0 ++ [EvConnect script_connection])%list) as [[total | e] h'];
    reflexivity.
Qed.

Lemma asset_run (SAMPLE_SIZE B : Z) (db : database) (table : Table)
    (r : trino_resource.TrinoResource) (h0 : history) :
  ingestion.iceberg_raw_yellow_trips_with SAMPLE_SIZE B db table r h0
  = bind (insert_taxi_data.batch_insert db B (sampled table SAMPLE_SIZE))
         (asset_tail db)
         (h0 ++ [EvConnect (asset_connection r)])%list.
Proof.
  unfold ingestion.iceberg_raw_yellow_trips_with.
  unfold bind at 1. unfold lift at 1. rewrite Table_slice_sample.
  reflexivity.
Qed.

Lemma asset_tail_total (db : database) (total : Z) (h : history)
    (out : ingestion.Output) (h' : history) :
  asset_tail db total h = (Ok out, h') -> ingestion.rows_inserted out = total.
Proof.
  unfold asset_tail, bind, cursor_execute, cursor_fetchone, lift, ret.
  destruct (execute_raises db h _); [discriminate |].
  destruct (fetchone_result db _) as [row | e]; [| discriminate].
  destruct (first_column row); [| discriminate].
  intros H. injection H as <- _. reflexivity.
Qed.

(** C3: when the statement of batch [k] is rejected with the error [e],
    nothing catches [e]: the loop, and the function around it, end with
    [e]; the history ends at that submission, so no later batch is
    submitted; and what the batches before [k] produced, their
    statements, fetches and progress reports and the running total
    through batch [k - 1], is left as it was. *)
Theorem batch_error_propagates (db : database) (B : Z) (df : DataFrame)
    (starts : list Z) (k : nat) (start : Z) (e : exn) (total' : Z)
    (h h' : history) :
  range 0 (len df) B = Ok starts ->
  nth_error starts k = Some start ->
  for_each (firstn k starts)
    (insert_taxi_data.insert_batch db B df (str_join ", " (columns df)))
    0 h = (Ok total', h') ->
  execute_raises db h' (statement_at df B start) = Some e ->
  let failed := (h' ++ [EvExecute (statement_at df B start)])%list in
  insert_taxi_data.batch_insert db B df h = (Raise e, failed)
  /\ ingestion.batch_insert db B df h = (Raise e, failed)
  /\ total' = total_rows (map (fun s => iloc df s (s + B)) (firstn k starts))
  /\ h' = (h ++ success_events df B (firstn k starts) 0)%list
  /\ (forall (SAMPLE_SIZE : Z) (table : Table) (h0 : history),
         df = sampled table SAMPLE_SIZE ->
         h = (h0 ++ [EvConnect script_connection])%list ->
         insert_taxi_data.main_with SAMPLE_SIZE B db table h0 = (Raise e, failed))
  /\ (forall (SAMPLE_SIZE : Z) (table : Table)
             (r : trino_resource.TrinoResource) (h0 : history),
         df = sampled table SAMPLE_SIZE ->
         h = (h0 ++ [EvConnect (asset_connection r)])%list ->
         ingestion.iceberg_raw_yellow_trips_with SAMPLE_SIZE B db table r h0
         = (Raise e, failed)).
Proof.
  intros Hr Hk Hpre He failed.
  assert (L : insert_taxi_data.batch_insert db B df h = (Raise e, failed)).
  { unfold insert_taxi_data.batch_insert, bind, lift. rewrite Hr.
    exact (loop_stops db B df starts k start e 0 total' h h' Hk Hpre He). }
  destruct (loop_invariant db B df _ _ _ _ _ Hpre) as [Ht Hh].
  repeat apply conj.
  - exact L.
  - exact L.
  - lia.
  - exact Hh.
  - intros SAMPLE_SIZE table h0 -> ->. rewrite main_with_run, L. reflexivity.
  - intros SAMPLE_SIZE table r h0 -> ->. rewrite asset_run.
    unfold bind. rewrite L. reflexivity.
Qed.

Lemma batch_error_propagates_witness :
  insert_taxi_data.batch_insert (failing_db 1 query_error) 2 (frame_of_size 5) []
  = (Raise query_error,
     [EvExecute (statement_at (frame_of_size 5) 2 0); EvFetchall;
      EvReport (Progress 2 5);
      EvExecute (statement_at (frame_of_size 5) 2 2)]).
Proof.
  pose proof (batch_error_propagates (failing_db 1 query_error) 2
                (frame_of_size 5) [0; 2; 4] 1%nat 2 query_error 2 []
                [EvExecute (statement_at (frame_of_size 5) 2 0); EvFetchall;
                 EvReport (Progress 2 5)]
                eq_refl eq_refl eq_refl eq_refl) as H.
  exact (proj1 H).
Defined.



End Emitter.

(* ===================================================================== *)
(** * The Trino resource *)
(* ===================================================================== *)

Section Resource.
Import Py Spec.
Local Open Scope string_scope.
Local Open Scope Z_scope.

(** [TrinoResource.execute], by what the database answers. *)
Lemma execute_run (db : database) (self : trino_resource.TrinoResource)
    (sql : string) (schema_arg : option string) (h : history) :
  let h1 := (h ++ [EvConnect (resource_connection self schema_arg)])%list in
  let h2 := (h1 ++ [EvExecute sql])%list in
  trino_resource.execute db self sql schema_arg h
  = match execute_raises db h1 sql with
    | Some e => (Raise e, h2)
    | None =>
        match fetchall_result db h2 with
        | Ok result => (Ok result, (h2 ++ [EvFetchall])%list)
        | Raise e =>
            if isinstance_Exception e
            then (Ok [], (h2 ++ [EvFetchall])%list)
            else (Raise e, (h2 ++ [EvFetchall])%list)
        end
    end.
Proof.
  intros h1 h2. unfold trino_resource.execute, trino_resource.get_connection.
  unfold bind at 1. unfold connect.
  fold (resource_connection self schema_arg). fold h1.
  unfold bind, cursor_execute.
  destruct (execute_raises db h1 sql) as [e |]; [reflexivity |]. fold h2.
  unfold try_except_Exception, cursor_fetchall, ret.
  destruct (fetchall_result db h2) as [result | e]; [reflexivity |].
  destruct (isinstance_Exception e); reflexivity.
Qed.

(** The fetch of [execute] is guarded by [except Exception], which lets a
    [KeyboardInterrupt] through. *)
Lemma execute_fetch_interrupt :
  let h1 := [EvConnect (resource_connection trino_resource.TrinoResource_default None)] in
  execute_raises (fetch_raising_db KeyboardInterrupt) h1 "SELECT 1" = None
  /\ fetchall_result (fetch_raising_db KeyboardInterrupt)
       (h1 ++ [EvExecute "SELECT 1"])%list = Raise KeyboardInterrupt
  /\ fst (trino_resource.execute (fetch_raising_db KeyboardInterrupt)
            trino_resource.TrinoResource_default "SELECT 1" None [])
     = Raise KeyboardInterrupt
  /\ fst (trino_resource.execute (fetch_raising_db KeyboardInterrupt)
            trino_resource.TrinoResource_default "SELECT 1" None [])
     <> Ok [].
Proof.
  repeat apply conj; try reflexivity. discriminate.
Qed.

(** C10, amended: [TrinoResource.execute] propagates any exception that
    statement execution raises; an exception raised while fetching is
    swallowed, and the empty list returned, when it is an instance of
    [Exception]; one that is not ([KeyboardInterrupt], [SystemExit],
    [GeneratorExit]) propagates.  So a call either raises from the
    execution, or returns a list, or raises a non-[Exception] from the
    fetch. *)
Theorem execute_swallows_fetch_Exception (db : database)
    (self : trino_resource.TrinoResource) (sql : string)
    (schema_arg : option string) (h : history) :
  let h1 := (h ++ [EvConnect (resource_connection self schema_arg)])%list in
  let h2 := (h1 ++ [EvExecute sql])%list in
  let run := trino_resource.execute db self sql schema_arg h in
  (forall e : exn, execute_raises db h1 sql = Some e -> run = (Raise e, h2))
  /\ (execute_raises db h1 sql = None ->
      (forall result, fetchall_result db h2 = Ok result ->
                      run = (Ok result, (h2 ++ [EvFetchall])%list))
      /\ (forall e, fetchall_result db h2 = Raise e ->
                    isinstance_Exception e = true ->
                    run = (Ok [], (h2 ++ [EvFetchall])%list))
      /\ (forall e, fetchall_result db h2 = Raise e ->
                    isinstance_Exception e = false ->
                    run = (Raise e, (h2 ++ [EvFetchall])%list)))
  /\ ((exists e, execute_raises db h1 sql = Some e /\ fst run = Raise e)
      \/ (exists result, execute_raises db h1 sql = None /\ fst run = Ok result)
      \/ (exists e, execute_raises db h1 sql = None
                    /\ fetchall_result db h2 = Raise e
                    /\ isinstance_Exception e = false
                    /\ fst run = Raise e)).
Proof.
  intros h1 h2 run. subst run. rewrite execute_run. fold h1. fold h2.
  destruct (execute_raises db h1 sql) as [e0 |].
  - repeat apply conj.
    + intros e E. injection E as <-. reflexivity.
    + discriminate.
    + left. exists e0. split; reflexivity.
  - destruct (fetchall_result db h2) as [result | e] eqn:F.
    + repeat apply conj; try discriminate.
      * intros _. repeat apply conj; try discriminate.
        intros r E. injection E as <-. reflexivity.
      * right. left. exists result. split; reflexivity.
    + destruct (isinstance_Exception e) eqn:I.
      * repeat apply conj; try discriminate.
        -- intros _. repeat apply conj; try discriminate.
           ++ intros e' E _. reflexivity.
           ++ intros e' E I'. injection E as <-. congruence.
        -- right. left. exists []. split; reflexivity.
      * repeat apply conj; try discriminate.
        -- intros _. repeat apply conj; try discriminate.
           ++ intros e' E I'. injection E as <-. congruence.
           ++ intros e' E _. injection E as <-. reflexivity.
        -- right. right. exists e. repeat split; try reflexivity; assumption.
Qed.

Lemma execute_swallows_fetch_Exception_witness :
  trino_resource.execute (fetch_raising_db query_error)
    trino_resource.TrinoResource_default "SELECT 1" None []
  = (Ok [],
     [EvConnect (resource_connection trino_resource.TrinoResource_default None);
      EvExecute "SELECT 1"; EvFetchall]).
Proof.
  pose proof (execute_swallows_fetch_Exception (fetch_raising_db query_error)
                trino_resource.TrinoResource_default "SELECT 1" None []) as H.
  cbv zeta in H. destruct H as (_ & H & _).
  destruct (H eq_refl) as (_ & H2 & _).
  exact (H2 query_error eq_refl eq_refl).
Defined.

End Resource.

(* ===================================================================== *)
(** * Further properties of the formatter *)
(* ===================================================================== *)

Section FormatterMore.
Import Py Spec.
Local Open Scope string_scope.
Local Open Scope Z_scope.

Lemma has_char_app (c : ascii) (s t : string) :
  has_char c (s ++ t) = has_char c s || has_char c t.
Proof.
  induction s as [| a s IH]; [reflexivity |].
  simpl. rewrite IH, orb_assoc. reflexivity.
Qed.

Lemma only_numeric_uint (u : Decimal.uint) :
  only_numeric (NilEmpty.string_of_uint u) = true.
Proof. induction u; simpl; auto. Qed.

Lemma only_numeric_str_int (z : Z) : only_numeric (str_int z) = true.
Proof.
  unfold str_int, NilZero.string_of_int, NilZero.string_of_uint.
  destruct (Z.to_int z) as [u | u]; destruct u; simpl;
    auto using only_numeric_uint.
Qed.

(** A character that is neither a digit nor a minus sign does not occur
    in a numeric string. *)
Lemma only_numeric_has_char (c : ascii) (s : string) :
  numeric_head (String c EmptyString) = false ->
  only_numeric s = true -> has_char c s = false.
Proof.
  intros Hc. induction s as [| a s IH]; [reflexivity |].
  simpl. intros H. apply andb_prop in H. destruct H as [Ha Hs].
  rewrite (IH Hs), orb_false_r.
  destruct (Ascii.eqb_spec c a) as [-> | _]; [| reflexivity].
  simpl in Hc. rewrite Ha in Hc. discriminate.
Qed.

(** The class of a text that opens with a digit or a minus sign. *)
Lemma literal_class_numeric (s : string) :
  numeric_head s = true ->
  literal_class_of s
  = if has_char "." s || has_char "e" s || has_char "n" s then CFloat else CInt.
Proof.
  destruct s as [| c s]; [discriminate |].
  destruct c as [[] [] [] [] [] [] [] []]; try discriminate; reflexivity.
Qed.

Lemma format_repr_point_or_e (ds : string) (decpt : Z) :
  has_char "." (format_repr ds decpt) || has_char "e" (format_repr ds decpt) = true.
Proof.
  unfold format_repr.
  destruct ((decpt <=? -4) || (16 <? decpt)).
  - rewrite (has_char_app "e"). rewrite (has_char_app "e" "e").
    simpl. rewrite !orb_true_r. reflexivity.
  - destruct (decpt <=? 0); [reflexivity |].
    destruct (decpt <? Z.of_nat (String.length ds)).
    + rewrite (has_char_app "."), (has_char_app "." "."). simpl.
      rewrite orb_true_r. reflexivity.
    + rewrite !(has_char_app "."). simpl. rewrite !orb_true_r. reflexivity.
Qed.

Lemma literal_class_float (f : spec_float) :
  f <> S754_nan -> literal_class_of (str_float f) = CFloat.
Proof.
  intros Hf. destruct f as [s | s | | s m e].
  - destruct s; reflexivity.
  - destruct s; reflexivity.
  - contradiction.
  - rewrite literal_class_numeric by apply numeric_head_finite.
    unfold str_float. destruct (shortest_digits m e) as [ds decpt].
    pose proof (format_repr_point_or_e ds decpt) as H.
    rewrite !has_char_app.
    destruct (has_char "." (format_repr ds decpt));
      destruct (has_char "e" (format_repr ds decpt));
      try discriminate; rewrite ?orb_true_r; reflexivity.
Qed.

Lemma literal_class_int (z : Z) : literal_class_of (str_int z) = CInt.
Proof.
  rewrite literal_class_numeric by apply numeric_head_str_int.
  rewrite !only_numeric_has_char by (reflexivity || apply only_numeric_str_int).
  reflexivity.
Qed.

Lemma literal_class_sql_literal (v : value) :
  literal_class_of (sql_literal v) = class_of v.
Proof.
  destruct v as [| f | z | s | d | b].
  - reflexivity.
  - destruct f as [s | s | | s m e]; try reflexivity;
      apply literal_class_float; discriminate.
  - apply literal_class_int.
  - reflexivity.
  - reflexivity.
  - destruct b; reflexivity.
Qed.

(** X1: the text of a literal tells the kind of the value it was made
    from (null, string, timestamp, boolean, float or integer), so two
    values of different kinds never get the same literal; the one
    collision is that [None] and the NaN are both nulls. *)
Theorem format_value_reveals_kind :
  (forall (v : value) (s : string),
      insert_taxi_data.format_value v = Ok s \/ ingestion._format_value v = Ok s ->
      literal_class_of s = class_of v)
  /\ (forall v w : value,
         insert_taxi_data.format_value v = insert_taxi_data.format_value w ->
         class_of v = class_of w).
Proof.
  assert (K : forall v s, insert_taxi_data.format_value v = Ok s ->
                          literal_class_of s = class_of v).
  { intros v s H. rewrite format_value_literal in H. injection H as <-.
    apply literal_class_sql_literal. }
  split.
  - intros v s [H | H]; exact (K v s H).
  - intros v w H.
    rewrite <- (K v (sql_literal v) (format_value_literal v)).
    apply K. rewrite <- H. apply format_value_literal.
Qed.

Lemma format_value_reveals_kind_witness :
  literal_class_of "3.5" = class_of (PyFloat float_3_5).
Proof.
  apply (proj1 format_value_reveals_kind (PyFloat float_3_5) "3.5").
  left. vm_compute. reflexivity.
Defined.

Lemma str_int_inj (a b : Z) : str_int a = str_int b -> a = b.
Proof.
  unfold str_int. intros H. apply DecimalZ.to_int_inj.
  assert (N : forall z, Z.to_int z <> Decimal.Pos Decimal.Nil
                        /\ Z.to_int z <> Decimal.Neg Decimal.Nil).
  { intros [| p | p]; simpl; split; try discriminate;
      intros E; injection E as E; exact (DecimalPos.Unsigned.to_uint_nonnil p E). }
  destruct (N a) as [Ha1 Ha2]. destruct (N b) as [Hb1 Hb2].
  pose proof (NilZero.isi _ Ha1 Ha2) as Ea.
  pose proof (NilZero.isi _ Hb1 Hb2) as Eb.
  rewrite H in Ea. rewrite Ea in Eb. injection Eb as Eb. exact Eb.
Qed.

Lemma append_char_inj (s t : string) (c : ascii) :
  s ++ String c EmptyString = t ++ String c EmptyString -> s = t.
Proof.
  revert t. induction s as [| a s IH]; intros [| b t] H; simpl in H.
  - reflexivity.
  - injection H as _ H. destruct t; discriminate.
  - injection H as _ H. destruct s; discriminate.
  - injection H as -> H. f_equal. apply IH. exact H.
Qed.

(** X2: the formatter loses nothing on integers, strings and booleans:
    two integers, two strings or two booleans with the same literal are
    equal. *)
Theorem format_value_injective :
  (forall a b : Z,
      insert_taxi_data.format_value (PyInt a) = insert_taxi_data.format_value (PyInt b) ->
      a = b)
  /\ (forall s t : string,
         insert_taxi_data.format_value (PyStr s) = insert_taxi_data.format_value (PyStr t) ->
         s = t)
  /\ (forall b c : bool,
         insert_taxi_data.format_value (PyBool b) = insert_taxi_data.format_value (PyBool c) ->
         b = c).
Proof.
  repeat apply conj.
  - intros a b H. rewrite !format_value_literal in H. injection H as H.
    apply str_int_inj. exact H.
  - intros s t H. rewrite !format_value_literal in H. injection H as H.
    apply append_char_inj in H. exact H.
  - intros [] [] H; try reflexivity; discriminate H.
Qed.

Lemma format_value_injective_witness : 42 = 42.
Proof.
  apply (proj1 format_value_injective 42 42). reflexivity.
Defined.

End FormatterMore.

(* ===================================================================== *)
(** * Further properties of the batch loop *)
(* ===================================================================== *)

Section EmitterMore.
Import Py Spec.
Local Open Scope string_scope.
Local Open Scope Z_scope.

Lemma submitted_app (a b : list event) :
  submitted (a ++ b) = (submitted a ++ submitted b)%list.
Proof. apply flat_map_app. Qed.

Lemma progress_totals_app (a b : list event) :
  progress_totals (a ++ b) = (progress_totals a ++ progress_totals b)%list.
Proof. apply flat_map_app. Qed.

Lemma submitted_success_events (df : DataFrame) (B : Z) (starts : list Z) :
  forall total : Z,
    submitted (success_events df B starts total) = map (statement_at df B) starts.
Proof.
  induction starts as [| s starts IH]; intros total; [reflexivity |].
  cbn [success_events map]. rewrite submitted_app, IH. reflexivity.
Qed.

(** The size of the batch that starts at row [i * B]. *)
Lemma batch_len (df : DataFrame) (B : Z) (i : nat) :
  0 < B ->
  len (iloc df (Z.of_nat i * B) (Z.of_nat i * B + B))
  = Z.min ((Z.of_nat i + 1) * B) (len df) - Z.min (Z.of_nat i * B) (len df).
Proof.
  intros HB. unfold len, iloc. cbn [rows].
  rewrite slice_nonneg by lia. rewrite length_firstn, length_skipn.
  replace ((Z.of_nat i + 1) * B) with (Z.of_nat i * B + B) by lia.
  assert (Ha : 0 <= Z.of_nat i * B) by nia.
  set (a := Z.of_nat i * B) in *. lia.
Qed.

Lemma progress_success_events (df : DataFrame) (B : Z) :
  0 < B ->
  forall (k s : nat),
    progress_totals
      (success_events df B (map (fun i => Z.of_nat i * B) (seq s k))
                      (Z.min (Z.of_nat s * B) (len df)))
    = map (fun i => Z.min ((Z.of_nat i + 1) * B) (len df)) (seq s k).
Proof.
  intros HB. induction k as [| k IH]; intros s; [reflexivity |].
  cbn [seq map success_events]. rewrite progress_totals_app.
  rewrite batch_len by assumption.
  replace (Z.min (Z.of_nat s * B) (len df)
           + (Z.min ((Z.of_nat s + 1) * B) (len df)
              - Z.min (Z.of_nat s * B) (len df)))
    with (Z.min ((Z.of_nat s + 1) * B) (len df)) by ring.
  replace (Z.of_nat s + 1) with (Z.of_nat (S s)) by lia.
  rewrite IH. reflexivity.
Qed.

Lemma range_empty (B : Z) : B <> 0 -> range 0 0 B = Ok [].
Proof.
  intros HB. unfold range, range_length.
  destruct (Z.eqb_spec B 0); [contradiction |].
  destruct (0 <? B); reflexivity.
Qed.

Lemma range_negative_step (N B : Z) : B < 0 -> 0 <= N -> range 0 N B = Ok [].
Proof.
  intros HB HN. unfold range, range_length.
  destruct (Z.eqb_spec B 0); [lia |].
  destruct (Z.ltb_spec 0 B); [lia |].
  destruct (Z.ltb_spec N 0); [lia |]. reflexivity.
Qed.

(** X3: with no rows to insert (an empty table, or a sample size of 0)
    the loop submits no statement at all and the total is 0; [main] then
    only opens its connection and reports 0 rows. *)
Theorem empty_input_submits_nothing (db : database) (B : Z) :
  B <> 0 ->
  (forall (df : DataFrame) (h : history),
      rows df = [] ->
      insert_taxi_data.batch_insert db B df h = (Ok 0, h)
      /\ ingestion.batch_insert db B df h = (Ok 0, h))
  /\ (forall (table : Table) (h0 : history),
         insert_taxi_data.main_with 0 B db table h0
         = (Ok 0, (h0 ++ [EvConnect script_connection; EvReport (Done 0)])%list)).
Proof.
  intros HB.
  assert (E : forall df h, rows df = [] ->
                insert_taxi_data.batch_insert db B df h = (Ok 0, h)).
  { intros df h Hr. unfold insert_taxi_data.batch_insert, bind, lift, len.
    rewrite Hr. cbn [List.length Z.of_nat]. rewrite range_empty by assumption.
    reflexivity. }
  split.
  - intros df h Hr. split; exact (E df h Hr).
  - intros table h0. rewrite main_with_run, E by reflexivity.
    rewrite <- app_assoc. reflexivity.
Qed.

Lemma empty_input_submits_nothing_witness :
  insert_taxi_data.main_with 0 500 quiet_db five_rows []
  = (Ok 0, [EvConnect script_connection; EvReport (Done 0)]).
Proof.
  apply (proj2 (empty_input_submits_nothing quiet_db 500 ltac:(discriminate))
               five_rows []).
Defined.

(** X4: the batch size is not checked.  With a batch size of 0 the loop
    raises [ValueError] before any statement is submitted ([main] has
    already opened its connection by then); with a negative one the loop
    body never runs, so nothing is inserted and the run ends normally
    with a total of 0, whatever the table holds. *)
Theorem batch_size_not_positive (db : database) (df : DataFrame) (h : history)
    (SAMPLE_SIZE : Z) (table : Table) (h0 : history) :
  insert_taxi_data.batch_insert db 0 df h = (Raise ValueError, h)
  /\ ingestion.batch_insert db 0 df h = (Raise ValueError, h)
  /\ insert_taxi_data.main_with SAMPLE_SIZE 0 db table h0
     = (Raise ValueError, (h0 ++ [EvConnect script_connection])%list)
  /\ (forall B : Z,
         B < 0 ->
         insert_taxi_data.batch_insert db B df h = (Ok 0, h)
         /\ ingestion.batch_insert db B df h = (Ok 0, h)
         /\ insert_taxi_data.main_with SAMPLE_SIZE B db table h0
            = (Ok 0, (h0 ++ [EvConnect script_connection; EvReport (Done 0)])%list)).
Proof.
  assert (Z0 : forall d hh, insert_taxi_data.batch_insert db 0 d hh
                            = (Raise ValueError, hh)) by reflexivity.
  assert (Ng : forall B d hh, B < 0 ->
                 insert_taxi_data.batch_insert db B d hh = (Ok 0, hh)).
  { intros B d hh HB. unfold insert_taxi_data.batch_insert, bind, lift.
    rewrite range_negative_step by (unfold len; lia). reflexivity. }
  repeat apply conj.
  - apply Z0.
  - exact (Z0 df h).
  - rewrite main_with_run, Z0. reflexivity.
  - intros B HB. repeat apply conj.
    + apply Ng, HB.
    + exact (Ng B df h HB).
    + rewrite main_with_run, Ng by assumption. rewrite <- app_assoc. reflexivity.
Qed.

Lemma batch_size_not_positive_witness :
  insert_taxi_data.batch_insert quiet_db (-500) (frame_of_size 5) []
  = (Ok 0, []).
Proof.
  destruct (batch_size_not_positive quiet_db (frame_of_size 5) [] 3 five_rows [])
    as (_ & _ & _ & H).
  exact (proj1 (H (-500) ltac:(lia))).
Defined.

Lemma firstn_succ_nth {A : Type} (l : list A) (k : nat) (x : A) :
  nth_error l k = Some x -> firstn (S k) l = (firstn k l ++ [x])%list.
Proof.
  revert k. induction l as [| a l IH]; intros [| k] Hk; try discriminate.
  - injection Hk as ->. reflexivity.
  - cbn in Hk. change (firstn (S (S k)) (a :: l)) with (a :: firstn (S k) l).
    rewrite (IH k Hk). reflexivity.
Qed.

(** The loop stops when draining the result of a batch raises. *)
Lemma loop_stops_at_fetch (db : database) (B : Z) (df : DataFrame)
    (starts : list Z) (k : nat) (start : Z) (e : exn) (total total' : Z)
    (h h' : history) :
  nth_error starts k = Some start ->
  for_each (firstn k starts)
    (insert_taxi_data.insert_batch db B df (str_join ", " (columns df)))
    total h = (Ok total', h') ->
  execute_raises db h' (statement_at df B start) = None ->
  fetchall_result db (h' ++ [EvExecute (statement_at df B start)])%list = Raise e ->
  for_each starts
    (insert_taxi_data.insert_batch db B df (str_join ", " (columns df)))
    total h
  = (Raise e, (h' ++ [EvExecute (statement_at df B start); EvFetchall])%list).
Proof.
  intros Hk Hpre He Hf.
  rewrite <- (firstn_skipn k starts) at 1.
  rewrite for_each_app, Hpre.
  assert (E : skipn k starts = start :: skipn (S k) starts).
  { clear - Hk. revert k Hk. induction starts as [| x xs IH]; intros [| k] Hk;
      try discriminate.
    - injection Hk as ->. reflexivity.
    - cbn in Hk. cbn [skipn]. rewrite (IH k Hk). reflexivity. }
  rewrite E. cbn [for_each]. unfold bind. rewrite insert_batch_run, He, Hf.
  reflexivity.
Qed.

(** X5: when draining the result of batch [k] ([cursor.fetchall]) raises
    [e] after its statement went through, the loop ends with [e]: the
    statement of batch [k] has been submitted, but the batch is not added
    to the running total and gets no progress report, and no later batch
    is submitted. *)
Theorem fetch_error_propagates (db : database) (B : Z) (df : DataFrame)
    (starts : list Z) (k : nat) (start : Z) (e : exn) (total' : Z)
    (h h' : history) :
  range 0 (len df) B = Ok starts ->
  nth_error starts k = Some start ->
  for_each (firstn k starts)
    (insert_taxi_data.insert_batch db B df (str_join ", " (columns df)))
    0 h = (Ok total', h') ->
  execute_raises db h' (statement_at df B start) = None ->
  fetchall_result db (h' ++ [EvExecute (statement_at df B start)])%list = Raise e ->
  let failed := (h' ++ [EvExecute (statement_at df B start); EvFetchall])%list in
  insert_taxi_data.batch_insert db B df h = (Raise e, failed)
  /\ ingestion.batch_insert db B df h = (Raise e, failed)
  /\ submitted failed
     = (submitted h ++ map (statement_at df B) (firstn (S k) starts))%list
  /\ progress_totals failed = progress_totals h'.
Proof.
  intros Hr Hk Hpre He Hf failed.
  assert (L : insert_taxi_data.batch_insert db B df h = (Raise e, failed)).
  { unfold insert_taxi_data.batch_insert, bind, lift. rewrite Hr.
    exact (loop_stops_at_fetch db B df starts k start e 0 total' h h'
             Hk Hpre He Hf). }
  destruct (loop_invariant db B df _ _ _ _ _ Hpre) as [_ Hh].
  repeat apply conj.
  - exact L.
  - exact L.
  - unfold failed. rewrite submitted_app, Hh, submitted_app,
      submitted_success_events. cbn [submitted flat_map app].
    rewrite <- app_assoc. f_equal.
    rewrite (firstn_succ_nth starts k start Hk), map_app. reflexivity.
  - unfold failed. rewrite progress_totals_app. cbn. apply app_nil_r.
Qed.

Lemma fetch_error_propagates_witness :
  insert_taxi_data.batch_insert (fetch_raising_db query_error) 2 (frame_of_size 5) []
  = (Raise query_error,
     [EvExecute (statement_at (frame_of_size 5) 2 0); EvFetchall]).
Proof.
  pose proof (fetch_error_propagates (fetch_raising_db query_error) 2
                (frame_of_size 5) [0; 2; 4] 0%nat 0 query_error 0 [] []
                eq_refl eq_refl eq_refl eq_refl eq_refl) as H.
  exact (proj1 H).
Defined.

Lemma length_success_events (df : DataFrame) (B : Z) (starts : list Z) :
  forall total : Z,
    List.length (success_events df B starts total) = (3 * List.length starts)%nat.
Proof.
  induction starts as [| s starts IH]; intros total; [reflexivity |].
  cbn [success_events]. rewrite length_app, IH. cbn [List.length]. lia.
Qed.

(** What a completed run of the script's loop leaves behind. *)
Lemma batch_insert_shape (db : database) (B : Z) (df : DataFrame)
    (h : history) (total : Z) (h' : history) :
  0 < B ->
  insert_taxi_data.batch_insert db B df h = (Ok total, h') ->
  let n := Z.to_nat ((len df + B - 1) / B) in
  exists evs : list event,
    h' = (h ++ evs)%list
    /\ List.length evs = (3 * n)%nat
    /\ submitted evs
       = map (fun i => statement_at df B (Z.of_nat i * B)) (seq 0 n)
    /\ progress_totals evs
       = map (fun i => Z.min ((Z.of_nat i + 1) * B) (len df)) (seq 0 n)
    /\ total = len df.
Proof.
  intros HB H n.
  assert (HN : 0 <= len df) by (unfold len; lia).
  destruct (range_batches_total df B HB) as (starts & Hr & Htot).
  pose proof (range_positive (len df) B HB HN) as Hr'. fold n in Hr'.
  rewrite Hr in Hr'. injection Hr' as Hs.
  unfold insert_taxi_data.batch_insert, bind, lift in H. rewrite Hr in H.
  apply loop_invariant in H. destruct H as [Ht Hh].
  exists (success_events df B starts 0). repeat apply conj.
  - exact Hh.
  - rewrite length_success_events, Hs, length_map, length_seq. reflexivity.
  - rewrite submitted_success_events, Hs, map_map. reflexivity.
  - rewrite Hs.
    replace 0 with (Z.min (Z.of_nat 0 * B) (len df)) at 1 by (simpl; lia).
    apply progress_success_events. exact HB.
  - lia.
Qed.

(** X6: a run of the loop that completes has submitted exactly one
    [INSERT] per batch, [ceil(N / B)] in all, each followed by one fetch
    and one progress report; the [i]-th report shows
    [min ((i + 1) * B) N] rows, and the final total is [N]. *)
Theorem completed_run_shape (db : database) (B : Z) (df : DataFrame)
    (h : history) (total : Z) (h' : history) :
  0 < B ->
  insert_taxi_data.batch_insert db B df h = (Ok total, h')
  \/ ingestion.batch_insert db B df h = (Ok total, h') ->
  let n := Z.to_nat ((len df + B - 1) / B) in
  exists evs : list event,
    h' = (h ++ evs)%list
    /\ List.length evs = (3 * n)%nat
    /\ submitted evs
       = map (fun i => statement_at df B (Z.of_nat i * B)) (seq 0 n)
    /\ progress_totals evs
       = map (fun i => Z.min ((Z.of_nat i + 1) * B) (len df)) (seq 0 n)
    /\ total = len df.
Proof.
  intros HB [H | H]; exact (batch_insert_shape db B df h total h' HB H).
Qed.

Lemma completed_run_shape_witness :
  exists evs : list event,
    [EvExecute (statement_at (frame_of_size 5) 2 0); EvFetchall;
     EvReport (Progress 2 5);
     EvExecute (statement_at (frame_of_size 5) 2 2); EvFetchall;
     EvReport (Progress 4 5);
     EvExecute (statement_at (frame_of_size 5) 2 4); EvFetchall;
     EvReport (Progress 5 5)] = ([] ++ evs)%list
    /\ progress_totals evs = [2; 4; 5].
Proof.
  destruct (completed_run_shape quiet_db 2 (frame_of_size 5) [] 5
              [EvExecute (statement_at (frame_of_size 5) 2 0); EvFetchall;
               EvReport (Progress 2 5);
               EvExecute (statement_at (frame_of_size 5) 2 2); EvFetchall;
               EvReport (Progress 4 5);
               EvExecute (statement_at (frame_of_size 5) 2 4); EvFetchall;
               EvReport (Progress 5 5)]
              ltac:(lia) (or_introl eq_refl))
    as (evs & H1 & _ & _ & H4 & _).
  exists evs. split; [exact H1 | exact H4].
Defined.

(** X7: the loop keeps no memory of earlier runs: on a database that
    raises nothing, a second run submits the same statements once more,
    so every row is inserted twice. *)
Theorem rerun_inserts_again (db : database) (B : Z) (df : DataFrame)
    (h : history) :
  0 < B -> never_raises db ->
  exists evs : list event,
    insert_taxi_data.batch_insert db B df h = (Ok (len df), (h ++ evs)%list)
    /\ bind (insert_taxi_data.batch_insert db B df)
            (fun _ => insert_taxi_data.batch_insert db B df) h
       = (Ok (len df), (h ++ evs ++ evs)%list)
    /\ submitted evs
       = map (fun i => statement_at df B (Z.of_nat i * B))
             (seq 0 (Z.to_nat ((len df + B - 1) / B))).
Proof.
  intros HB Hdb.
  destruct (range_batches_total df B HB) as (starts & Hr & Htot).
  assert (Hrun : forall hh, insert_taxi_data.batch_insert db B df hh
             = (Ok (len df), (hh ++ success_events df B starts 0)%list)).
  { intros hh. unfold insert_taxi_data.batch_insert, bind, lift. rewrite Hr.
    rewrite (loop_completes db B df Hdb). do 2 f_equal. lia. }
  exists (success_events df B starts 0). repeat apply conj.
  - apply Hrun.
  - unfold bind. rewrite Hrun, Hrun, <- app_assoc. reflexivity.
  - destruct (batch_insert_shape db B df h _ _ HB (Hrun h))
      as (evs & E & _ & S3 & _).
    apply app_inv_head in E. rewrite E. exact S3.
Qed.

Lemma rerun_inserts_again_witness :
  exists evs : list event,
    insert_taxi_data.batch_insert quiet_db 2 (frame_of_size 5) []
    = (Ok 5, evs)
    /\ bind (insert_taxi_data.batch_insert quiet_db 2 (frame_of_size 5))
            (fun _ => insert_taxi_data.batch_insert quiet_db 2 (frame_of_size 5)) []
       = (Ok 5, (evs ++ evs)%list).
Proof.
  assert (N : never_raises quiet_db).
  { unfold never_raises. repeat apply conj; intros.
    - reflexivity.
    - eexists. reflexivity.
    - do 2 eexists. reflexivity. }
  destruct (rerun_inserts_again quiet_db 2 (frame_of_size 5) [] ltac:(lia) N)
    as (evs & H1 & H2 & _).
  exists evs. split; [exact H1 | exact H2].
Defined.

(** Whatever the database does, the statements the loop submits are the
    statements of its first batches, in order. *)
Lemma loop_only_inserts (db : database) (B : Z) (df : DataFrame)
    (starts : list Z) :
  forall (total : Z) (h : history) (r : outcome Z) (h' : history),
    for_each starts
      (insert_taxi_data.insert_batch db B df (str_join ", " (columns df)))
      total h = (r, h') ->
    exists (evs : list event) (j : nat),
      h' = (h ++ evs)%list
      /\ (j <= List.length starts)%nat
      /\ submitted evs = map (statement_at df B) (firstn j starts).
Proof.
  induction starts as [| s starts IH]; intros total h r h' H.
  - cbn in H. injection H as _ <-. exists [], 0%nat.
    rewrite app_nil_r. repeat split. cbn. lia.
  - cbn [for_each] in H. unfold bind in H. rewrite insert_batch_run in H.
    destruct (execute_raises db h (statement_at df B s)) as [e |].
    + injection H as _ <-. exists [EvExecute (statement_at df B s)], 1%nat.
      repeat split. cbn. lia.
    + destruct (fetchall_result db _) as [res | e].
      * apply IH in H. destruct H as (evs & j & -> & Hj & Hs).
        exists ([EvExecute (statement_at df B s); EvFetchall;
                 EvReport (Progress (total + len (iloc df s (s + B))) (len df))]
                ++ evs)%list, (S j).
        rewrite <- app_assoc. repeat split.
        -- cbn. lia.
        -- rewrite submitted_app, Hs. reflexivity.
      * injection H as _ <-.
        exists [EvExecute (statement_at df B s); EvFetchall], 1%nat.
        repeat split. cbn. lia.
Qed.




(** X9: with the constants of the script and of the asset, a run that
    completes has inserted at most 10 000 rows, in at most 20 [INSERT]
    statements, however large the file is. *)
Theorem main_bounded_by_constants (db : database) (table : Table)
    (h0 : history) :
  (forall (total : Z) (h' : history),
      insert_taxi_data.main db table h0 = (Ok total, h') ->
      0 <= total <= 10000
      /\ exists evs : list event,
           h' = (h0 ++ evs)%list /\ (List.length (submitted evs) <= 20)%nat)
  /\ (forall (r : trino_resource.TrinoResource) (out : ingestion.Output)
             (h' : history),
         ingestion.iceberg_raw_yellow_trips db table r h0 = (Ok out, h') ->
         0 <= ingestion.rows_inserted out <= 10000).
Proof.
  assert (L : len (sampled table 10000) <= 10000).
  { rewrite len_sampled by lia. lia. }
  assert (L0 : 0 <= len (sampled table 10000)) by (unfold len; lia).
  split.
  - intros total h'. unfold insert_taxi_data.main.
    rewrite main_with_run.
    destruct (insert_taxi_data.batch_insert db insert_taxi_data.BATCH_SIZE _ _)
      as [[t | e] h1] eqn:E; [| discriminate].
    intros H. injection H as <- <-.
    apply batch_insert_shape in E; [| reflexivity].
    destruct E as (evs & -> & _ & Hs & _ & ->). split; [exact (conj L0 L) |].
    exists ([EvConnect script_connection] ++ evs
            ++ [EvReport (Done (len (sampled table insert_taxi_data.SAMPLE_SIZE)))])%list.
    split; [rewrite <- !app_assoc; reflexivity |].
    rewrite !submitted_app.
    change (submitted [EvConnect script_connection]) with (@nil string).
    change (submitted [EvReport (Done (len (sampled table insert_taxi_data.SAMPLE_SIZE)))])
      with (@nil string).
    rewrite app_nil_r, app_nil_l, Hs, length_map, length_seq.
    unfold insert_taxi_data.BATCH_SIZE, insert_taxi_data.SAMPLE_SIZE.
    assert (D : (len (sampled table 10000) + 500 - 1) / 500 <= 20).
    { replace 20 with ((10000 + 500 - 1) / 500) by reflexivity.
      apply Z.div_le_mono; lia. }
    lia.
  - intros r out h'. unfold ingestion.iceberg_raw_yellow_trips.
    rewrite asset_run. unfold bind.
    destruct (insert_taxi_data.batch_insert db ingestion.BATCH_SIZE _ _)
      as [[t | e] h1] eqn:E; [| discriminate].
    intros H. apply asset_tail_total in H. rewrite H.
    apply batch_insert_shape in E; [| reflexivity].
    destruct E as (evs & _ & _ & _ & _ & ->). exact (conj L0 L).
Qed.

Lemma main_bounded_by_constants_witness :
  0 <= 5 <= 10000
  /\ exists evs : list event,
       snd (insert_taxi_data.main quiet_db five_rows []) = ([] ++ evs)%list
       /\ (List.length (submitted evs) <= 20)%nat.
Proof.
  apply (proj1 (main_bounded_by_constants quiet_db five_rows []) 5
               (snd (insert_taxi_data.main quiet_db five_rows []))).
  vm_compute. reflexivity.
Defined.



End EmitterMore.

(* ===================================================================== *)
(** * The setup asset and the choice of schema *)
(* ===================================================================== *)

Section Setup.
Import Py Spec.
Local Open Scope string_scope.
Local Open Scope Z_scope.

Lemma iceberg_schemas_run (db : database) (r : trino_resource.TrinoResource)
    (h : history) :
  ingestion.iceberg_schemas db r h
  = match for_each ingestion.statements (setup_step db r) tt h with
    | (Ok _, h') => (Ok "schemas + table created", h')
    | (Raise e, h') => (Raise e, h')
    end.
Proof.
  unfold ingestion.iceberg_schemas, bind at 1.
  change (fun (stmt : string) (_ : unit) =>
            bind (trino_resource.execute db r stmt None) (fun _ => ret tt))
    with (setup_step db r).
  destruct (for_each ingestion.statements (setup_step db r) tt h)
    as [[u | e] h']; reflexivity.
Qed.

(** One statement of the setup, when its execution does not raise and
    its fetch returns or raises an [Exception]. *)
Lemma setup_step_ok (db : database) (r : trino_resource.TrinoResource)
    (stmt : string) (h : history) :
  (forall hh sql, execute_raises db hh sql = None) ->
  (forall hh e, fetchall_result db hh = Raise e -> isinstance_Exception e = true) ->
  setup_step db r stmt tt h = (Ok tt, (h ++ setup_events r [stmt])%list).
Proof.
  intros He Hf. unfold setup_step, bind. rewrite execute_run, He.
  unfold setup_events. cbn [flat_map]. rewrite app_nil_r.
  destruct (fetchall_result db _) as [res | e] eqn:F.
  - unfold ret. rewrite <- !app_assoc. reflexivity.
  - rewrite (Hf _ _ F). unfold ret. rewrite <- !app_assoc. reflexivity.
Qed.

Lemma setup_loop_ok (db : database) (r : trino_resource.TrinoResource) :
  (forall hh sql, execute_raises db hh sql = None) ->
  (forall hh e, fetchall_result db hh = Raise e -> isinstance_Exception e = true) ->
  forall (stmts : list string) (h : history),
    for_each stmts (setup_step db r) tt h
    = (Ok tt, (h ++ setup_events r stmts)%list).
Proof.
  intros He Hf. induction stmts as [| stmt stmts IH]; intros h.
  - cbn. unfold ret. rewrite app_nil_r. reflexivity.
  - cbn [for_each]. unfold bind. rewrite setup_step_ok by assumption.
    rewrite IH. unfold setup_events. cbn [flat_map].
    rewrite app_nil_r, <- !app_assoc. reflexivity.
Qed.

(** X11: when no statement is rejected, the setup asset submits its four
    statements in order (the three schemas, then the table), each on a
    connection of its own, and returns its status text; a fetch that
    raises an [Exception] for any of them changes nothing to that. *)
Theorem iceberg_schemas_completes (db : database)
    (r : trino_resource.TrinoResource) (h : history) :
  (forall hh sql, execute_raises db hh sql = None) ->
  (forall hh e, fetchall_result db hh = Raise e -> isinstance_Exception e = true) ->
  ingestion.iceberg_schemas db r h
  = (Ok "schemas + table created",
     (h ++ setup_events r ingestion.statements)%list)
  /\ submitted (setup_events r ingestion.statements)
     = [ "CREATE SCHEMA IF NOT EXISTS iceberg.raw";
         "CREATE SCHEMA IF NOT EXISTS iceberg.silver";
         "CREATE SCHEMA IF NOT EXISTS iceberg.gold";
         ingestion.create_table_statement ]
  /\ connections (setup_events r ingestion.statements)
     = repeat (resource_connection r None) 4.
Proof.
  intros He Hf. repeat apply conj.
  - rewrite iceberg_schemas_run, setup_loop_ok by assumption. reflexivity.
  - reflexivity.
  - reflexivity.
Qed.

Lemma iceberg_schemas_completes_witness :
  ingestion.iceberg_schemas (fetch_raising_db query_error)
    trino_resource.TrinoResource_default []
  = (Ok "schemas + table created",
     ([] ++ setup_events trino_resource.TrinoResource_default
              ingestion.statements)%list).
Proof.
  apply (iceberg_schemas_completes (fetch_raising_db query_error)
           trino_resource.TrinoResource_default []).
  - reflexivity.
  - intros hh e H. injection H as <-. reflexivity.
Defined.

(** X12: the setup asset stops at the first statement whose execution
    raises, or whose fetch raises something that is not an [Exception]:
    the error is the asset's result and the statements after it are not
    submitted. *)
Theorem iceberg_schemas_stops (db : database)
    (r : trino_resource.TrinoResource) (k : nat) (stmt : string) (e : exn)
    (h h' : history) :
  nth_error ingestion.statements k = Some stmt ->
  for_each (firstn k ingestion.statements) (setup_step db r) tt h = (Ok tt, h') ->
  let h1 := (h' ++ [EvConnect (resource_connection r None)])%list in
  (execute_raises db h1 stmt = Some e ->
   ingestion.iceberg_schemas db r h = (Raise e, (h1 ++ [EvExecute stmt])%list))
  /\ (execute_raises db h1 stmt = None ->
      fetchall_result db (h1 ++ [EvExecute stmt])%list = Raise e ->
      isinstance_Exception e = false ->
      ingestion.iceberg_schemas db r h
      = (Raise e, (h1 ++ [EvExecute stmt; EvFetchall])%list)).
Proof.
  intros Hk Hpre h1.
  assert (R : ingestion.iceberg_schemas db r h
              = match setup_step db r stmt tt h' with
                | (Ok _, h2) =>
                    match for_each (skipn (S k) ingestion.statements)
                                   (setup_step db r) tt h2 with
                    | (Ok _, h3) => (Ok "schemas + table created", h3)
                    | (Raise e', h3) => (Raise e', h3)
                    end
                | (Raise e', h2) => (Raise e', h2)
                end).
  { rewrite iceberg_schemas_run.
    rewrite <- (firstn_skipn k ingestion.statements) at 1.
    rewrite for_each_app, Hpre.
    assert (E : skipn k ingestion.statements
                = stmt :: skipn (S k) ingestion.statements).
    { clear - Hk. revert k Hk.
      induction ingestion.statements as [| x xs IH]; intros [| k] Hk;
        try discriminate.
      - injection Hk as ->. reflexivity.
      - cbn in Hk. cbn [skipn]. rewrite (IH k Hk). reflexivity. }
    rewrite E. cbn [for_each]. unfold bind at 1.
    destruct (setup_step db r stmt tt h') as [[u | e'] h2]; [| reflexivity].
    destruct u. reflexivity. }
  rewrite R. unfold setup_step, bind. rewrite execute_run. fold h1.
  split.
  - intros ->. reflexivity.
  - intros -> -> ->. rewrite <- app_assoc. reflexivity.
Qed.

Lemma iceberg_schemas_stops_witness :
  ingestion.iceberg_schemas (failing_db 1 query_error)
    trino_resource.TrinoResource_default []
  = (Raise query_error,
     (setup_events trino_resource.TrinoResource_default
        ["CREATE SCHEMA IF NOT EXISTS iceberg.raw"]
      ++ [EvConnect (resource_connection trino_resource.TrinoResource_default None);
          EvExecute "CREATE SCHEMA IF NOT EXISTS iceberg.silver"])%list).
Proof.
  pose proof (iceberg_schemas_stops (failing_db 1 query_error)
                trino_resource.TrinoResource_default 1%nat
                "CREATE SCHEMA IF NOT EXISTS iceberg.silver" query_error []
                (setup_events trino_resource.TrinoResource_default
                   ["CREATE SCHEMA IF NOT EXISTS iceberg.raw"])
                eq_refl eq_refl) as H.
  cbv zeta in H. exact (proj1 H eq_refl).
Defined.

(** X13: which schema a connection uses.  [get_connection] takes the
    schema it is given unless that is [None] or the empty string, and
    then the schema of the resource; so [execute] with an empty schema
    behaves as with none; and the ingestion asset always connects to
    [raw], whatever schema the resource is configured with. *)
Theorem schema_choice (db : database) (self : trino_resource.TrinoResource)
    (h : history) :
  (forall s : string,
      s <> EmptyString ->
      exists c : connection,
        trino_resource.get_connection self (Some s) h = (Ok c, (h ++ [EvConnect c])%list)
        /\ conn_schema c = s
        /\ conn_host c = trino_resource.host self
        /\ conn_port c = trino_resource.port self
        /\ conn_user c = trino_resource.user self
        /\ conn_catalog c = trino_resource.catalog self)
  /\ trino_resource.get_connection self (Some EmptyString) h
     = trino_resource.get_connection self None h
  /\ (exists c : connection,
         trino_resource.get_connection self None h = (Ok c, (h ++ [EvConnect c])%list)
         /\ conn_schema c = trino_resource.schema self)
  /\ (forall sql : string,
         trino_resource.execute db self sql (Some EmptyString) h
         = trino_resource.execute db self sql None h)
  /\ (forall (SAMPLE_SIZE B : Z) (table : Table),
         exists evs : list event,
           snd (ingestion.iceberg_raw_yellow_trips_with SAMPLE_SIZE B db table self h)
           = (h ++ EvConnect (asset_connection self) :: evs)%list
           /\ conn_schema (asset_connection self) = "raw").
Proof.
  repeat apply conj.
  - intros s Hs. eexists. unfold trino_resource.get_connection, connect.
    split; [reflexivity |]. cbn. unfold trino_resource.str_or.
    destruct (String.eqb_spec s EmptyString); [contradiction |].
    repeat split.
  - reflexivity.
  - eexists. split; reflexivity.
  - reflexivity.
  - intros SAMPLE_SIZE B table. rewrite asset_run. unfold bind.
    destruct (insert_taxi_data.batch_insert db B (sampled table SAMPLE_SIZE) _)
      as [[t | e] h1] eqn:E.
    + unfold insert_taxi_data.batch_insert, bind, lift in E.
      assert (P : exists evs, h1 = ((h ++ [EvConnect (asset_connection self)]) ++ evs)%list).
      { destruct (range 0 _ B) as [starts | e0]; [| discriminate].
        apply loop_only_inserts in E. destruct E as (evs & _ & -> & _). eauto. }
      destruct P as (evs & ->).
      destruct (asset_tail db t _) as [o h2] eqn:T.
      assert (Q : exists evs', h2 = (((h ++ [EvConnect (asset_connection self)]) ++ evs) ++ evs')%list).
      { revert T. unfold asset_tail, bind, cursor_execute, cursor_fetchone, lift, ret.
        destruct (execute_raises db _ _).
        - intros T. injection T as _ <-. eauto.
        - destruct (fetchone_result db _) as [row | e1].
          + destruct (first_column row); intros T; injection T as _ <-;
              rewrite <- app_assoc; eauto.
          + intros T. injection T as _ <-. rewrite <- app_assoc. eauto. }
      destruct Q as (evs' & ->). exists (evs ++ evs')%list. split; [| reflexivity].
      cbn [snd]. rewrite <- !app_assoc. reflexivity.
    + unfold insert_taxi_data.batch_insert, bind, lift in E.
      destruct (range 0 _ B) as [starts | e0].
      * apply loop_only_inserts in E. destruct E as (evs & _ & -> & _).
        exists evs. split; [| reflexivity]. cbn [snd].
        rewrite <- app_assoc. reflexivity.
      * injection E as _ <-. exists []. split; reflexivity.
Qed.

Lemma schema_choice_witness :
  exists c : connection,
    trino_resource.get_connection trino_resource.TrinoResource_default
      (Some "silver") []
    = (Ok c, ([] ++ [EvConnect c])%list)
    /\ conn_schema c = "silver".
Proof.
  destruct (proj1 (schema_choice quiet_db trino_resource.TrinoResource_default [])
              "silver" ltac:(discriminate)) as (c & H1 & H2 & _).
  exists c. split; [exact H1 | exact H2].
Defined.

End Setup.

(* ===================================================================== *)
(** * The download asset *)
(* ===================================================================== *)

Section Download.
Import Py Spec.
Local Open Scope string_scope.
Local Open Scope Z_scope.

Lemma str_app_assoc (a b c : string) : (a ++ b) ++ c = a ++ (b ++ c).
Proof. induction a as [| x a IH]; [reflexivity |]. simpl. rewrite IH. reflexivity. Qed.

Lemma write_chunks_joined (chunks : list string) :
  forall content : string,
    PyFiles.write_chunks content chunks = content ++ joined chunks.
Proof.
  induction chunks as [| c chunks IH]; intros content.
  - simpl. induction content as [| x s IHs]; [reflexivity |].
    simpl. rewrite <- IHs. reflexivity.
  - simpl. rewrite IH, str_app_assoc. reflexivity.
Qed.

(** With the file on disk the asset only reads it. *)
Lemma raw_taxi_file_cached (net : PyFiles.remote) (pq : PyFiles.parquet_reader)
    (DATA_DIR content : string) (w : PyFiles.world) :
  PyFiles.files w (taxi_path DATA_DIR) = Some content ->
  ingestion.raw_taxi_file net pq DATA_DIR w = (read_local pq DATA_DIR content, w).
Proof.
  intros H. unfold ingestion.raw_taxi_file, read_local.
  change (DATA_DIR ++ "/" ++ "yellow_tripdata_2024-01.parquet")
    with (taxi_path DATA_DIR).
  rewrite H. cbv beta iota. rewrite H.
  destruct (pq content); reflexivity.
Qed.

(** The asset when the file is missing, by what the server answers. *)
Lemma raw_taxi_file_download (net : PyFiles.remote) (pq : PyFiles.parquet_reader)
    (DATA_DIR : string) (w : PyFiles.world) :
  PyFiles.files w (taxi_path DATA_DIR) = None ->
  let w0 := PyFiles.record_request w taxi_url in
  ingestion.raw_taxi_file net pq DATA_DIR w
  = match net taxi_url with
    | Raise e => (Raise e, w0)
    | Ok resp =>
        if (400 <=? PyFiles.status_code resp) && (PyFiles.status_code resp <? 600)
        then (Raise PyFiles.HTTPError, w0)
        else
          let content := joined (PyFiles.body_chunks resp) in
          let w1 := PyFiles.write_file w0 (taxi_path DATA_DIR) content in
          match PyFiles.body_error resp with
          | Some e => (Raise e, w1)
          | None => (read_local pq DATA_DIR content, w1)
          end
    end.
Proof.
  intros H w0. unfold ingestion.raw_taxi_file.
  change (DATA_DIR ++ "/" ++ "yellow_tripdata_2024-01.parquet")
    with (taxi_path DATA_DIR).
  change (ingestion.TAXI_BASE_URL ++ "/" ++ "yellow_tripdata_2024-01.parquet")
    with taxi_url.
  rewrite H. fold w0.
  destruct (net taxi_url) as [resp | e]; [| reflexivity].
  unfold PyFiles.raise_for_status.
  destruct ((400 <=? PyFiles.status_code resp) && (PyFiles.status_code resp <? 600));
    [reflexivity |].
  rewrite write_chunks_joined. cbn [String.append].
  destruct (PyFiles.body_error resp) as [e |]; [reflexivity |].
  cbv beta iota. unfold PyFiles.write_file at 1. cbn [PyFiles.files].
  rewrite String.eqb_refl. unfold read_local.
  destruct (pq (joined (PyFiles.body_chunks resp))); reflexivity.
Qed.

(** X14: when the file is already on disk the download asset makes no
    request and leaves the disk as it is, whatever the server would
    answer; its result is the row count the parquet reader finds in that
    file, or the reader's error. *)
Theorem cached_file_skips_download (net net' : PyFiles.remote)
    (pq : PyFiles.parquet_reader) (DATA_DIR content : string) (w : PyFiles.world) :
  PyFiles.files w (taxi_path DATA_DIR) = Some content ->
  ingestion.raw_taxi_file net pq DATA_DIR w = (read_local pq DATA_DIR content, w)
  /\ ingestion.raw_taxi_file net pq DATA_DIR w
     = ingestion.raw_taxi_file net' pq DATA_DIR w
  /\ PyFiles.requested (snd (ingestion.raw_taxi_file net pq DATA_DIR w))
     = PyFiles.requested w.
Proof.
  intros H. rewrite !(raw_taxi_file_cached _ pq DATA_DIR content w H).
  repeat split.
Qed.

Lemma cached_file_skips_download_witness :
  ingestion.raw_taxi_file missing_server strict_reader "data"
    (PyFiles.write_file empty_world (taxi_path "data") "PAR1abc")
  = (read_local strict_reader "data" "PAR1abc",
     PyFiles.write_file empty_world (taxi_path "data") "PAR1abc").
Proof.
  apply (cached_file_skips_download missing_server good_server strict_reader
           "data" "PAR1abc"
           (PyFiles.write_file empty_world (taxi_path "data") "PAR1abc")).
  reflexivity.
Defined.

(** X15: when the file is missing and the request fails, either because
    [requests.get] raises or because the status is an error (400 to
    599), the asset raises before opening the file: one request has been
    made and the file is still missing. *)
Theorem failed_request_leaves_no_file (net : PyFiles.remote)
    (pq : PyFiles.parquet_reader) (DATA_DIR : string) (w : PyFiles.world) :
  PyFiles.files w (taxi_path DATA_DIR) = None ->
  let w0 := PyFiles.record_request w taxi_url in
  (forall e : exn,
      net taxi_url = Raise e ->
      ingestion.raw_taxi_file net pq DATA_DIR w = (Raise e, w0))
  /\ (forall resp : PyFiles.response,
         net taxi_url = Ok resp ->
         400 <= PyFiles.status_code resp < 600 ->
         ingestion.raw_taxi_file net pq DATA_DIR w = (Raise PyFiles.HTTPError, w0))
  /\ PyFiles.files w0 (taxi_path DATA_DIR) = None
  /\ PyFiles.requested w0 = (PyFiles.requested w ++ [taxi_url])%list.
Proof.
  intros H w0. repeat apply conj.
  - intros e E. rewrite raw_taxi_file_download by assumption. rewrite E.
    reflexivity.
  - intros resp E S. rewrite raw_taxi_file_download by assumption. rewrite E.
    destruct (Z.leb_spec 400 (PyFiles.status_code resp)); [| lia].
    destruct (Z.ltb_spec (PyFiles.status_code resp) 600); [| lia].
    reflexivity.
  - exact H.
  - reflexivity.
Qed.

Lemma failed_request_leaves_no_file_witness :
  ingestion.raw_taxi_file missing_server strict_reader "data" empty_world
  = (Raise PyFiles.HTTPError, PyFiles.record_request empty_world taxi_url).
Proof.
  pose proof (failed_request_leaves_no_file missing_server strict_reader "data"
                empty_world eq_refl) as H.
  cbv zeta in H. destruct H as (_ & H & _).
  apply (H _ eq_refl). cbn. lia.
Defined.

(** X16: when the stream breaks after some chunks, the asset raises, but
    the chunks received so far stay on disk under the final file name.
    Every later run then finds the file, makes no request, and reads
    that partial file: the download is never retried. *)
Theorem broken_download_is_kept (net net' : PyFiles.remote)
    (pq pq' : PyFiles.parquet_reader) (DATA_DIR : string) (w : PyFiles.world)
    (resp : PyFiles.response) (e : exn) :
  PyFiles.files w (taxi_path DATA_DIR) = None ->
  net taxi_url = Ok resp ->
  ~ (400 <= PyFiles.status_code resp < 600) ->
  PyFiles.body_error resp = Some e ->
  let partial := joined (PyFiles.body_chunks resp) in
  let w1 := PyFiles.write_file (PyFiles.record_request w taxi_url)
                               (taxi_path DATA_DIR) partial in
  ingestion.raw_taxi_file net pq DATA_DIR w = (Raise e, w1)
  /\ PyFiles.files w1 (taxi_path DATA_DIR) = Some partial
  /\ ingestion.raw_taxi_file net' pq' DATA_DIR w1
     = (read_local pq' DATA_DIR partial, w1).
Proof.
  intros H E S B partial w1.
  assert (F : PyFiles.files w1 (taxi_path DATA_DIR) = Some partial).
  { unfold w1, PyFiles.write_file. cbn [PyFiles.files].
    rewrite String.eqb_refl. reflexivity. }
  repeat apply conj.
  - rewrite raw_taxi_file_download by assumption. rewrite E.
    destruct (Z.leb_spec 400 (PyFiles.status_code resp));
      destruct (Z.ltb_spec (PyFiles.status_code resp) 600);
      try (exfalso; apply S; lia); cbn [andb]; cbv zeta; rewrite B; reflexivity.
  - exact F.
  - apply raw_taxi_file_cached. exact F.
Qed.

Lemma broken_download_is_kept_witness :
  ingestion.raw_taxi_file good_server strict_reader "data"
    (PyFiles.write_file (PyFiles.record_request empty_world taxi_url)
                        (taxi_path "data") (joined ["PAR1"; "abc"]))
  = (read_local strict_reader "data" (joined ["PAR1"; "abc"]),
     PyFiles.write_file (PyFiles.record_request empty_world taxi_url)
                        (taxi_path "data") (joined ["PAR1"; "abc"])).
Proof.
  pose proof (broken_download_is_kept broken_server good_server strict_reader
                strict_reader "data" empty_world _ _ eq_refl eq_refl
                ltac:(cbn; lia) eq_refl) as H.
  cbv zeta in H. exact (proj2 (proj2 H)).
Defined.

(** X17: a download that goes through writes the chunks to the file in
    the order received, and the result is what the parquet reader finds
    in it; running the asset again makes no second request and gives the
    same result. *)
Theorem download_then_reuse (net net' : PyFiles.remote)
    (pq : PyFiles.parquet_reader) (DATA_DIR : string) (w : PyFiles.world)
    (resp : PyFiles.response) :
  PyFiles.files w (taxi_path DATA_DIR) = None ->
  net taxi_url = Ok resp ->
  ~ (400 <= PyFiles.status_code resp < 600) ->
  PyFiles.body_error resp = None ->
  let content := joined (PyFiles.body_chunks resp) in
  let w1 := PyFiles.write_file (PyFiles.record_request w taxi_url)
                               (taxi_path DATA_DIR) content in
  ingestion.raw_taxi_file net pq DATA_DIR w = (read_local pq DATA_DIR content, w1)
  /\ PyFiles.files w1 (taxi_path DATA_DIR) = Some content
  /\ PyFiles.requested w1 = (PyFiles.requested w ++ [taxi_url])%list
  /\ ingestion.raw_taxi_file net' pq DATA_DIR w1
     = (read_local pq DATA_DIR content, w1).
Proof.
  intros H E S B content w1.
  assert (F : PyFiles.files w1 (taxi_path DATA_DIR) = Some content).
  { unfold w1, PyFiles.write_file. cbn [PyFiles.files].
    rewrite String.eqb_refl. reflexivity. }
  repeat apply conj.
  - rewrite raw_taxi_file_download by assumption. rewrite E.
    destruct (Z.leb_spec 400 (PyFiles.status_code resp));
      destruct (Z.ltb_spec (PyFiles.status_code resp) 600);
      try (exfalso; apply S; lia); cbn [andb]; cbv zeta; rewrite B; reflexivity.
  - exact F.
  - reflexivity.
  - apply raw_taxi_file_cached. exact F.
Qed.

Lemma download_then_reuse_witness :
  ingestion.raw_taxi_file good_server strict_reader "data" empty_world
  = (read_local strict_reader "data" (joined ["PAR1"; "abc"]),
     PyFiles.write_file (PyFiles.record_request empty_world taxi_url)
                        (taxi_path "data") (joined ["PAR1"; "abc"])).
Proof.
  pose proof (download_then_reuse good_server missing_server strict_reader
                "data" empty_world _ eq_refl eq_refl ltac:(cbn; lia) eq_refl) as H.
  cbv zeta in H. exact (proj1 H).
Defined.

End Download.

(* ===================================================================== *)
(** * What a complete run inserts *)
(* ===================================================================== *)

Section Sampling.
Import Py Spec.
Local Open Scope string_scope.
Local Open Scope Z_scope.

(** X18: the sample is the head of the file.  A run of [main] that
    completes has submitted, in order, the [INSERT] statements of
    consecutive batches whose rows, put end to end, are exactly the
    first [SAMPLE_SIZE] rows of the file (all of them when the file is
    shorter), each row once and in file order. *)
Theorem main_inserts_head_of_file (db : database) (SAMPLE_SIZE B : Z)
    (table : Table) (h0 : history) (total : Z) (h' : history) :
  0 < B -> 0 <= SAMPLE_SIZE ->
  insert_taxi_data.main_with SAMPLE_SIZE B db table h0 = (Ok total, h') ->
  let df := sampled table SAMPLE_SIZE in
  let n := Z.to_nat ((len df + B - 1) / B) in
  let batches :=
    map (fun i => rows (iloc df (Z.of_nat i * B) (Z.of_nat i * B + B))) (seq 0 n) in
  exists evs : list event,
    h' = (h0 ++ evs)%list
    /\ submitted evs
       = map (spec_insert_statement "yellow_trips"
                (map str_lower (column_names table))) batches
    /\ List.concat batches = firstn (Z.to_nat SAMPLE_SIZE) (table_rows table)
    /\ total = Z.of_nat (List.length (firstn (Z.to_nat SAMPLE_SIZE) (table_rows table))).
Proof.
  intros HB HS H df n batches.
  rewrite main_with_run in H. fold df in H.
  destruct (insert_taxi_data.batch_insert db B df _) as [[t | e] h1] eqn:E;
    [| discriminate].
  injection H as <- <-.
  apply batch_insert_shape in E; [| assumption].
  destruct E as (evs & -> & _ & Hs & _ & ->). fold n in Hs.
  exists ([EvConnect script_connection] ++ evs ++ [EvReport (Done (len df))])%list.
  repeat apply conj.
  - rewrite <- !app_assoc. reflexivity.
  - rewrite !submitted_app.
    change (submitted [EvConnect script_connection]) with (@nil string).
    change (submitted [EvReport (Done (len df))]) with (@nil string).
    rewrite app_nil_r, app_nil_l, Hs. unfold batches. rewrite map_map.
    reflexivity.
  - unfold batches.
    change (fun i => rows (iloc df (Z.of_nat i * B) (Z.of_nat i * B + B)))
      with (fun i => (fun start => slice (rows df) start (start + B))
                       ((fun i => Z.of_nat i * B) i)).
    rewrite <- map_map. rewrite concat_slices by assumption.
    assert (HN : 0 <= len df) by (unfold len; lia).
    destruct (ceiling_bounds (len df) B HB HN) as [Hn0 Hn].
    rewrite firstn_all2; [reflexivity |].
    fold n in Hn. unfold len in *.
    assert (En : Z.of_nat n = (Z.of_nat (List.length (rows df)) + B - 1) / B)
      by (unfold n, len; lia).
    rewrite <- En in Hn. lia.
  - reflexivity.
Qed.

Lemma main_inserts_head_of_file_witness :
  exists evs : list event,
    snd (insert_taxi_data.main_with 3 2 quiet_db five_rows []) = ([] ++ evs)%list
    /\ submitted evs
       = [spec_insert_statement "yellow_trips" ["vendorid"] [[PyInt 1]; [PyInt 2]];
          spec_insert_statement "yellow_trips" ["vendorid"] [[PyInt 3]]].
Proof.
  destruct (main_inserts_head_of_file quiet_db 3 2 five_rows [] 3
              (snd (insert_taxi_data.main_with 3 2 quiet_db five_rows []))
              ltac:(lia) ltac:(lia) eq_refl) as (evs & H1 & H2 & _).
  exists evs. split; [exact H1 | exact H2].
Defined.

End Sampling.
